(** * QMS (Quick Monitor Switcher): the tray application of [src/qms.py]

    A shallow embedding of the [QMS] window class and of the last branch of
    [__main__], the one that starts the tray application.  The attributes
    of the object, the settings file, the widgets of the monitor grid and
    the calls into the collaborators ([monitor_manager], [json], Qt) are one
    explicit state; every method is a function in a state-and-exception
    monad over it, written in the order of the Python statements.

    What the collaborators do is fixed as follows.
    - [generate_monitors()] is an oracle: the n-th call of a run returns
      [env_scan n], whatever that is.
    - [run_display_switch] and [toggle_monitors] are recorded in a
      chronological log of calls, together with every scan and every write
      of the settings file.
    - The settings file holds text.  The text is kept as what [json.load]
      makes of it: the document it decodes to, or text that does not
      decode.  [json.dump] writes text that decodes to the dumped value.
    - [QCheckBox.setChecked] emits [stateChanged] when, and only when, it
      changes the state of the box; a connected slot runs synchronously,
      before [setChecked] returns.  A new [QCheckBox()] is unchecked, a new
      [QMainWindow] is hidden.
    - Qt calls that only lay out or style widgets ([adjustSize],
      [setVisible] of the frames, icons, translations), the start-up
      shortcut checkbox and the [--list], [--enable], [--disable] branches
      of [__main__] touch nothing the methods below read, and are left out. *)

From Stdlib Require Import String ZArith.
From stdpp Require Import base option list strings gmap.

Set Warnings "-register-all".

Open Scope string_scope.
Open Scope list_scope.

(** ** Data *)

(** Modelled from the spec: the rows [generate_monitors()] returns
    ([monitor_manager] is not part of the sources).  The code reads
    positions 1, 2 and 3 of a row: the name, the "active" column and the
    column that [create_monitor_checkboxes] compares with ["No"]. *)
Record Monitor := mkMonitor {
  mon_0 : string;
  mon_1 : string;
  mon_2 : string;
  mon_3 : string
}.

(** Values of the [json] module, as Python sees them after [json.load]. *)
Inductive json :=
| JNull
| JBool (b : bool)
| JInt (z : Z)
| JFloat (literal : string)
| JStr (s : string)
| JArr (items : list json)
| JObj (fields : list (string * json)).

Inductive file_content :=
| Json_text (doc : json)
| Malformed_text (raw : string).

Inductive exn :=
| AttributeError
| TypeError
| StopIteration
| IndexError
| JSONDecodeError.

(** Calls that leave the process, in the order they are made. *)
Inductive event :=
| EvScan (rows : list Monitor)
| EvDisplaySwitch (arg : string)
| EvToggleMonitors (names : list string) (enable : bool)
| EvWrite (doc : json).

(** The two kinds of widget put into [gridLayout_2]. *)
Inductive widget :=
| QLabel (text : string)
| QCheckBox (monitor : string).

Record Tray := mkTray {
  icon_variant : string;
  icon_theme : string;
  menu_toggle_text : string
}.

(** The [QMS] object together with the part of the world it touches.
    [monitor_checkboxes = None] is the attribute not being set at all, which
    is the case for the whole life of a [--no-ddcci] window.  A Python dict
    keeps insertion order, so the dict is a list of items. *)
Record St := mkSt {
  no_ddcci : bool;
  monitors : list Monitor;
  monitor_checkboxes : option (list (string * bool));
  gridLayout_2 : list widget;
  settings : json;
  first_run : bool;
  secondary_monitors_enabled : bool;
  tray_icon : Tray;
  visible : bool;
  settings_file : option file_content;
  env_scan : nat → list Monitor;
  scans_done : nat;
  is_dark : bool;
  log : list event
}.

Definition set_monitors (v : list Monitor) (s : St) : St :=
  mkSt (no_ddcci s) v (monitor_checkboxes s) (gridLayout_2 s) (settings s)
       (first_run s) (secondary_monitors_enabled s) (tray_icon s) (visible s)
       (settings_file s) (env_scan s) (scans_done s) (is_dark s) (log s).

Definition set_monitor_checkboxes (v : option (list (string * bool))) (s : St) : St :=
  mkSt (no_ddcci s) (monitors s) v (gridLayout_2 s) (settings s)
       (first_run s) (secondary_monitors_enabled s) (tray_icon s) (visible s)
       (settings_file s) (env_scan s) (scans_done s) (is_dark s) (log s).

Definition set_gridLayout_2 (v : list widget) (s : St) : St :=
  mkSt (no_ddcci s) (monitors s) (monitor_checkboxes s) v (settings s)
       (first_run s) (secondary_monitors_enabled s) (tray_icon s) (visible s)
       (settings_file s) (env_scan s) (scans_done s) (is_dark s) (log s).

Definition set_settings (v : json) (s : St) : St :=
  mkSt (no_ddcci s) (monitors s) (monitor_checkboxes s) (gridLayout_2 s) v
       (first_run s) (secondary_monitors_enabled s) (tray_icon s) (visible s)
       (settings_file s) (env_scan s) (scans_done s) (is_dark s) (log s).

Definition set_first_run (v : bool) (s : St) : St :=
  mkSt (no_ddcci s) (monitors s) (monitor_checkboxes s) (gridLayout_2 s) (settings s)
       v (secondary_monitors_enabled s) (tray_icon s) (visible s)
       (settings_file s) (env_scan s) (scans_done s) (is_dark s) (log s).

Definition set_secondary_monitors_enabled (v : bool) (s : St) : St :=
  mkSt (no_ddcci s) (monitors s) (monitor_checkboxes s) (gridLayout_2 s) (settings s)
       (first_run s) v (tray_icon s) (visible s)
       (settings_file s) (env_scan s) (scans_done s) (is_dark s) (log s).

Definition set_tray_icon (v : Tray) (s : St) : St :=
  mkSt (no_ddcci s) (monitors s) (monitor_checkboxes s) (gridLayout_2 s) (settings s)
       (first_run s) (secondary_monitors_enabled s) v (visible s)
       (settings_file s) (env_scan s) (scans_done s) (is_dark s) (log s).

Definition set_visible (v : bool) (s : St) : St :=
  mkSt (no_ddcci s) (monitors s) (monitor_checkboxes s) (gridLayout_2 s) (settings s)
       (first_run s) (secondary_monitors_enabled s) (tray_icon s) v
       (settings_file s) (env_scan s) (scans_done s) (is_dark s) (log s).

Definition set_settings_file (v : option file_content) (s : St) : St :=
  mkSt (no_ddcci s) (monitors s) (monitor_checkboxes s) (gridLayout_2 s) (settings s)
       (first_run s) (secondary_monitors_enabled s) (tray_icon s) (visible s)
       v (env_scan s) (scans_done s) (is_dark s) (log s).

Definition set_scans_done (v : nat) (s : St) : St :=
  mkSt (no_ddcci s) (monitors s) (monitor_checkboxes s) (gridLayout_2 s) (settings s)
       (first_run s) (secondary_monitors_enabled s) (tray_icon s) (visible s)
       (settings_file s) (env_scan s) v (is_dark s) (log s).

Definition set_log (v : list event) (s : St) : St :=
  mkSt (no_ddcci s) (monitors s) (monitor_checkboxes s) (gridLayout_2 s) (settings s)
       (first_run s) (secondary_monitors_enabled s) (tray_icon s) (visible s)
       (settings_file s) (env_scan s) (scans_done s) (is_dark s) v.

(** ** The monad of methods: state, and a Python exception or a value *)

Inductive res (A : Type) :=
| Ok (a : A)
| Raise (e : exn).
Arguments Ok {A} a.
Arguments Raise {A} e.

Definition M (A : Type) : Type := St → res A * St.

#[global] Instance M_ret : MRet M := λ A a s, (Ok a, s).

#[global] Instance M_bind : MBind M := λ A B k m s,
  match m s with
  | (Ok a, s') => k a s'
  | (Raise e, s') => (Raise e, s')
  end.

#[global] Instance M_throw : MThrow exn M := λ A e s, (Raise e, s).

Definition get {A} (field : St → A) : M A := λ s, (Ok (field s), s).
Definition modify (f : St → St) : M unit := λ s, (Ok tt, f s).
Definition emit (e : event) : M unit := modify (λ s, set_log (log s ++ [e]) s).

(** [for x in xs: body(x)] *)
Fixpoint for_each {A} (xs : list A) (body : A → M unit) : M unit :=
  match xs with
  | [] => mret tt
  | x :: xs' => body x ;; for_each xs' body
  end.

(** [try: body / except AttributeError: pass] *)
Definition except_AttributeError_pass (body : M unit) : M unit := λ s,
  match body s with
  | (Raise AttributeError, s') => (Ok tt, s')
  | r => r
  end.

(** The value of [o], or the exception Python raises where there is none. *)
Definition or_raise {A} (e : exn) (o : option A) : M A :=
  match o with
  | Some a => mret a
  | None => mthrow e
  end.

Definition when (b : bool) (m : M unit) : M unit := if b then m else mret tt.

(** ** Python dicts and the [in] operator *)

Fixpoint dict_get {V} (k : string) (d : list (string * V)) : option V :=
  match d with
  | [] => None
  | (k', v) :: d' => if String.eqb k' k then Some v else dict_get k d'
  end.

(** [d[k] = v]: an existing key keeps its place, a new key goes last. *)
Fixpoint dict_set {V} (k : string) (v : V) (d : list (string * V)) : list (string * V) :=
  match d with
  | [] => [(k, v)]
  | (k', v') :: d' =>
      if String.eqb k' k then (k', v) :: d' else (k', v') :: dict_set k v d'
  end.

Definition keys {V} (d : list (string * V)) : list string := fst <$> d.

Definition is_JStr (s : string) (j : json) : bool :=
  match j with
  | JStr t => String.eqb t s
  | _ => false
  end.

Fixpoint is_prefix (p s : string) : bool :=
  match p, s with
  | EmptyString, _ => true
  | String a p', String b s' => if Ascii.eqb a b then is_prefix p' s' else false
  | String _ _, EmptyString => false
  end.

Fixpoint is_substring (p s : string) : bool :=
  is_prefix p s ||
  match s with
  | EmptyString => false
  | String _ s' => is_substring p s'
  end.

(** [monitor in container], for a string [monitor]: membership in a list,
    key of a dict, substring of a string; anything else is not iterable. *)
Definition py_in (monitor : string) (container : json) : M bool :=
  match container with
  | JArr items => mret (existsb (is_JStr monitor) items)
  | JObj fields => mret (bool_decide (is_Some (dict_get monitor fields)))
  | JStr s => mret (is_substring monitor s)
  | _ => mthrow TypeError
  end.

(** [value.get(key, [])]: only a dict has the method. *)
Definition py_get (value : json) (key : string) : M json :=
  match value with
  | JObj fields => mret (default (JArr []) (dict_get key fields))
  | _ => mthrow AttributeError
  end.

(** ** Collaborators *)

(** [generate_monitors()] *)
Definition generate_monitors : M (list Monitor) :=
  n ← get scans_done;
  rows ← get (λ s, env_scan s n);
  modify (set_scans_done (S n)) ;;
  emit (EvScan rows) ;;
  mret rows.

(** [run_display_switch(arg)] *)
Definition run_display_switch (arg : string) : M unit :=
  emit (EvDisplaySwitch arg).

(** [toggle_monitors(names, enable=enable)] *)
Definition toggle_monitors (names : list string) (enable : bool) : M unit :=
  emit (EvToggleMonitors names enable).

(** [json.load(f)] on the text of the settings file. *)
Definition json_load (text : file_content) : M json :=
  match text with
  | Json_text doc => mret doc
  | Malformed_text _ => mthrow JSONDecodeError
  end.

(** [with open(SETTINGS_FILE, "w") as f: json.dump(doc, f, indent=4)] *)
Definition json_dump (doc : json) : M unit :=
  modify (set_settings_file (Some (Json_text doc))) ;;
  emit (EvWrite doc).

(** ** Methods of [QMS] *)

(** Every item of the layout is taken out and its widget deleted. *)
Definition clear_monitor_checkboxes : M unit :=
  modify (set_gridLayout_2 []).

(** [self.monitor_checkboxes], raising when the attribute is not set. *)
Definition self_monitor_checkboxes : M (list (string * bool)) :=
  cbs ← get monitor_checkboxes;
  or_raise AttributeError cbs.

Definition checked_names (d : list (string * bool)) : list string :=
  keys (filter (λ item, snd item = true) d).

Definition settings_doc (names : list string) : json :=
  JObj [("secondary_monitors", JArr (JStr <$> names))].

(** Lines 80-88. *)
Definition save_settings : M unit :=
  d ← self_monitor_checkboxes;
  modify (set_settings (settings_doc (checked_names d))) ;;
  doc ← get settings;
  json_dump doc.

(** [checkbox.setChecked(b)] for the box stored under [monitor]: a change of
    state emits [stateChanged], which line 68 connects to [save_settings]. *)
Definition checkbox_setChecked (monitor : string) (b : bool) : M unit :=
  d ← self_monitor_checkboxes;
  match dict_get monitor d with
  | Some cur =>
      if Bool.eqb cur b then mret tt
      else modify (set_monitor_checkboxes (Some (dict_set monitor b d))) ;;
           save_settings
  | None => mret tt
  end.

(** Lines 60-78.  The dict maps a name to its newest box; an older box of
    the same name stays in the grid only. *)
Definition create_monitor_checkboxes : M unit :=
  clear_monitor_checkboxes ;;
  rows ← generate_monitors;
  modify (set_monitors rows) ;;
  modify (set_monitor_checkboxes (Some [])) ;;
  ms ← get monitors;
  for_each ms (λ monitor,
    when (String.eqb (mon_3 monitor) "No")
      (modify (λ s, set_gridLayout_2
                 (gridLayout_2 s ++ [QLabel (mon_1 monitor); QCheckBox (mon_1 monitor)]) s) ;;
       d ← self_monitor_checkboxes;
       modify (set_monitor_checkboxes (Some (dict_set (mon_1 monitor) false d))))).

(** Lines 90-102.  [os.path.exists(SETTINGS_FILE)] is the file being
    there; [self.settings] is read again in every round of the loop. *)
Definition load_settings : M unit :=
  f ← get settings_file;
  match f with
  | Some text =>
      doc ← json_load text;
      modify (set_settings doc) ;;
      except_AttributeError_pass
        (d ← self_monitor_checkboxes;
         for_each (keys d) (λ monitor,
           cur ← get settings;
           stored ← py_get cur "secondary_monitors";
           b ← py_in monitor stored;
           checkbox_setChecked monitor b))
  | None => modify (set_first_run true)
  end.

Definition tray_variant (enabled : bool) : string :=
  if negb enabled then "secondary" else "primary".

Definition tray_theme (dark : bool) : string :=
  if dark then "light" else "dark".

Definition tray_menu_text (enabled : bool) : string :=
  if negb enabled then "Enable secondary monitors" else "Disable secondary monitors".

Definition create_tray_icon : M Tray :=
  dark ← get is_dark;
  enabled ← get secondary_monitors_enabled;
  mret (mkTray (tray_variant enabled) (tray_theme dark) (tray_menu_text enabled)).

Definition update_tray_icon : M unit :=
  dark ← get is_dark;
  enabled ← get secondary_monitors_enabled;
  modify (λ s, set_tray_icon
    (mkTray (tray_variant enabled) (tray_theme dark) (menu_toggle_text (tray_icon s))) s).

Definition update_tray_menu : M unit :=
  enabled ← get secondary_monitors_enabled;
  modify (λ s, set_tray_icon
    (mkTray (icon_variant (tray_icon s)) (icon_theme (tray_icon s)) (tray_menu_text enabled)) s).

Definition is_active_secondary (monitor : Monitor) : bool :=
  String.eqb (mon_2 monitor) "Yes" && String.eqb (mon_3 monitor) "No".

(** Lines 145-147. *)
Definition get_active_monitors : M bool :=
  ms ← get monitors;
  let active_monitors_count := length (filter (λ m, is_active_secondary m = true) ms) in
  mret (bool_decide (0 < active_monitors_count)).

(** [next(index for index, mon in enumerate(rows) if mon[1] == monitor)] *)
Fixpoint first_index (monitor : string) (rows : list Monitor) : option nat :=
  match rows with
  | [] => None
  | mon :: rows' =>
      if String.eqb (mon_1 mon) monitor then Some 0
      else S <$> first_index monitor rows'
  end.

(** Lines 149-167. *)
Definition toggle_secondary_monitors : M unit :=
  enabled ← get secondary_monitors_enabled;
  when (negb enabled) (run_display_switch "/extend") ;;
  nd ← get no_ddcci;
  when (negb nd)
    (d ← self_monitor_checkboxes;
     for_each d (λ item,
       when (snd item)
         (ms ← get monitors;
          monitor_index ← or_raise StopIteration (first_index (fst item) ms);
          row ← or_raise IndexError (ms !! monitor_index);
          enabled ← get secondary_monitors_enabled;
          if enabled : bool then toggle_monitors [mon_1 row] false
          else toggle_monitors [mon_1 row] true))) ;;
  enabled ← get secondary_monitors_enabled;
  when enabled (run_display_switch "/internal") ;;
  enabled ← get secondary_monitors_enabled;
  modify (set_secondary_monitors_enabled (negb enabled)) ;;
  update_tray_icon ;;
  update_tray_menu ;;
  nd ← get no_ddcci;
  when (negb nd) create_monitor_checkboxes.

(** Lines 37-46; the Rescan button is [ClickRescan] below. *)
Definition init_ui : M unit :=
  nd ← get no_ddcci;
  when (negb nd) create_monitor_checkboxes.

(** The state a [QMS] object is built in: the environment, and no attribute
    assigned yet. *)
Definition fresh (nd : bool) (file : option file_content)
    (scan : nat → list Monitor) (dark : bool) : St :=
  mkSt nd [] None [] JNull false false (mkTray "" "" "") false file scan 0 dark [].

(** [QMS.__init__], lines 22-35. *)
Definition QMS_init : M unit :=
  rows ← generate_monitors;
  modify (set_monitors rows) ;;
  init_ui ;;
  modify (set_settings (JObj [])) ;;
  modify (set_first_run false) ;;
  enabled ← get_active_monitors;
  modify (set_secondary_monitors_enabled enabled) ;;
  tray ← create_tray_icon;
  modify (set_tray_icon tray) ;;
  load_settings.

(** [self.show()], [closeEvent] *)
Definition show : M unit := modify (set_visible true).
Definition closeEvent : M unit := modify (set_visible false).

(** The last branch of [__main__], lines 218-221, up to the event loop. *)
Definition main : M unit :=
  QMS_init ;;
  fr ← get first_run;
  when fr show.

(** ** What the user can do once the event loop runs *)

(** The signals the window is connected to: a click on a monitor's box, a
    click on an older box of a name that has a newer one, the Rescan button
    (line 46), a click on the tray icon (lines 114-116), the two entries of
    the tray menu that keep the program running (lines 126-130), and closing
    the window (lines 175-177). *)
Inductive action :=
| ClickCheckbox (monitor : string)
| ClickOlderCheckbox (monitor : string)
| ClickRescan
| ClickTray
| MenuToggle
| MenuSettings
| CloseWindow.

Definition is_box_of (monitor : string) (w : widget) : bool :=
  match w with
  | QCheckBox name => String.eqb name monitor
  | QLabel _ => false
  end.

(** An older box is not in the dict, so no method reads its state; its
    [stateChanged] still runs [save_settings]. *)
Definition click_older_checkbox (monitor : string) : M unit :=
  grid ← get gridLayout_2;
  when (1 <? length (filter (λ w, is_box_of monitor w = true) grid))%nat save_settings.

(** A click on a box flips it, through the same [setChecked] path. *)
Definition click_checkbox (monitor : string) : M unit :=
  d ← self_monitor_checkboxes;
  match dict_get monitor d with
  | Some cur => checkbox_setChecked monitor (negb cur)
  | None => mret tt
  end.

Definition handle (a : action) : M unit :=
  match a with
  | ClickCheckbox monitor => click_checkbox monitor
  | ClickOlderCheckbox monitor => click_older_checkbox monitor
  | ClickRescan => create_monitor_checkboxes
  | ClickTray => toggle_secondary_monitors
  | MenuToggle => toggle_secondary_monitors
  | MenuSettings => show
  | CloseWindow => closeEvent
  end.

Definition run_actions (acts : list action) : M unit := for_each acts handle.

Definition session (acts : list action) : M unit := main ;; run_actions acts.

(** ** The displays, as the calls of the log leave them *)

(** Modelled from the spec: what the two collaborator calls do to the
    displays ([monitor_manager] is not part of the sources).  The display
    switch sets how the desktop is composed ("extend" or "internal-only");
    a DDC/CI call enables or disables each monitor it names. *)
Record Displays := mkDisplays {
  mode : string;
  power : gmap string bool
}.

Definition set_power (enable : bool) (names : list string)
    (p : gmap string bool) : gmap string bool :=
  foldl (λ acc name, <[name := enable]> acc) p names.

Definition apply_event (w : Displays) (e : event) : Displays :=
  match e with
  | EvDisplaySwitch arg => mkDisplays arg (power w)
  | EvToggleMonitors names enable => mkDisplays (mode w) (set_power enable names (power w))
  | _ => w
  end.

Definition replay (w : Displays) (tr : list event) : Displays :=
  foldl apply_event w tr.

(** ** Vocabulary of the statements *)

(** What a method adds to the log when run from [s]. *)
Definition emitted {A} (m : M A) (s : St) : list event :=
  drop (length (log s)) (log (m s).2).

(** The names a scan offers a checkbox for. *)
Definition eligible_names (rows : list Monitor) : list string :=
  mon_1 <$> filter (λ m, mon_3 m = "No") rows.

(** The list stored under [secondary_monitors] in a settings document. *)
Definition secondary_monitors_of (doc : json) : list json :=
  match doc with
  | JObj fields =>
      match dict_get "secondary_monitors" fields with
      | Some (JArr items) => items
      | _ => []
      end
  | _ => []
  end.

Definition names_within (doc : json) (rows : list Monitor) : Prop :=
  ∀ j, j ∈ secondary_monitors_of doc → ∃ name, j = JStr name ∧ name ∈ eligible_names rows.

(** The rows of the latest scan of a log, [last] if there is none. *)
Fixpoint last_scan (last : list Monitor) (tr : list event) : list Monitor :=
  match tr with
  | [] => last
  | EvScan rows :: tr' => last_scan rows tr'
  | _ :: tr' => last_scan last tr'
  end.

(** Every write of the log stays within the scan that was the latest one
    when the write was made. *)
Fixpoint writes_within_scan (last : list Monitor) (tr : list event) : Prop :=
  match tr with
  | [] => True
  | EvScan rows :: tr' => writes_within_scan rows tr'
  | EvWrite doc :: tr' => names_within doc last ∧ writes_within_scan last tr'
  | _ :: tr' => writes_within_scan last tr'
  end.

(** The file on disk, read as a document, stays within the given rows. *)
Definition file_within (f : option file_content) (rows : list Monitor) : Prop :=
  match f with
  | Some (Json_text doc) => names_within doc rows
  | _ => True
  end.

(** The checkboxes [create_monitor_checkboxes] builds from a scan, and the
    widgets it lays out. *)
Definition add_checkbox (d : list (string * bool)) (monitor : Monitor) : list (string * bool) :=
  if String.eqb (mon_3 monitor) "No" then dict_set (mon_1 monitor) false d else d.

Definition built_checkboxes (rows : list Monitor) : list (string * bool) :=
  foldl add_checkbox [] rows.

Definition built_widgets (rows : list Monitor) : list widget :=
  flat_map (λ monitor,
    if String.eqb (mon_3 monitor) "No"
    then [QLabel (mon_1 monitor); QCheckBox (mon_1 monitor)] else []) rows.

(** The object is coherent: with DDC/CI on there is a dict of checkboxes,
    its keys are distinct (it is a dict), and every checkbox stands for an
    eligible row of [self.monitors]. *)
Definition coherent (s : St) : Prop :=
  (no_ddcci s = false → is_Some (monitor_checkboxes s)) ∧
  ∀ d, monitor_checkboxes s = Some d →
       NoDup (keys d) ∧ ∀ k, k ∈ keys d → k ∈ eligible_names (monitors s).

(** The signal comes from a checkbox that is there: the box the dict holds
    for the name, or an older box of the name in the grid. *)
Definition changes_a_checkbox (a : action) (s : St) : bool :=
  match a with
  | ClickCheckbox monitor =>
      match monitor_checkboxes s with
      | Some d => bool_decide (is_Some (dict_get monitor d))
      | None => false
      end
  | ClickOlderCheckbox monitor =>
      (1 <? length (filter (λ w, is_box_of monitor w = true) (gridLayout_2 s)))%nat
  | _ => false
  end.

(** ** Hoare triples over the monad *)

(** The postcondition sees how the method ended as well as the state it
    left. *)
Definition hoare {A} (P : St → Prop) (m : M A) (Q : res A → St → Prop) : Prop :=
  ∀ s, P s → Q (m s).1 (m s).2.

(** A state predicate that a method keeps, however the method ends. *)
Definition keeps {A} (I : St → Prop) (m : M A) : Prop := hoare I m (λ _, I).

(** ** The states the methods leave *)

(** The state a rescan leaves: new rows, new unchecked boxes, new widgets;
    the stored settings and the file are not touched. *)
Definition rescanned (s : St) : St :=
  let rows := env_scan s (scans_done s) in
  mkSt (no_ddcci s) rows (Some (built_checkboxes rows)) (built_widgets rows)
       (settings s) (first_run s) (secondary_monitors_enabled s) (tray_icon s)
       (visible s) (settings_file s) (env_scan s) (S (scans_done s)) (is_dark s)
       (log s ++ [EvScan rows]).

(** The state [save_settings] leaves when the boxes are [d]. *)
Definition saved (d : list (string * bool)) (s : St) : St :=
  let doc := settings_doc (checked_names d) in
  mkSt (no_ddcci s) (monitors s) (monitor_checkboxes s) (gridLayout_2 s) doc
       (first_run s) (secondary_monitors_enabled s) (tray_icon s) (visible s)
       (Some (Json_text doc)) (env_scan s) (scans_done s) (is_dark s)
       (log s ++ [EvWrite doc]).

(** The object when [__init__] reaches its last line, [self.load_settings()]. *)
Definition constructed (nd : bool) (file : option file_content)
    (scan : nat → list Monitor) (dark : bool) : St :=
  let rows := if nd then scan 0 else scan 1 in
  let enabled := bool_decide (0 < length (filter (λ m, is_active_secondary m = true) rows)) in
  mkSt nd rows
       (if nd then None else Some (built_checkboxes rows))
       (if nd then [] else built_widgets rows)
       (JObj []) false enabled
       (mkTray (tray_variant enabled) (tray_theme dark) (tray_menu_text enabled))
       false file scan (if nd then 1 else 2) dark
       (if nd then [EvScan (scan 0)] else [EvScan (scan 0); EvScan (scan 1)]).

(** The loop of [load_settings] inside its [try]. *)
Definition load_loop : M unit :=
  except_AttributeError_pass
    (d ← self_monitor_checkboxes;
     for_each (keys d) (λ monitor,
       cur ← get settings;
       stored ← py_get cur "secondary_monitors";
       b ← py_in monitor stored;
       checkbox_setChecked monitor b)).

(** The two parts of [toggle_secondary_monitors] around which it is read:
    the loop over the checkboxes, and what follows the loop. *)
Definition toggle_ddc_loop (d : list (string * bool)) : M unit :=
  for_each d (λ item,
    when (snd item)
      (ms ← get monitors;
       monitor_index ← or_raise StopIteration (first_index (fst item) ms);
       row ← or_raise IndexError (ms !! monitor_index);
       enabled ← get secondary_monitors_enabled;
       if enabled : bool then toggle_monitors [mon_1 row] false
       else toggle_monitors [mon_1 row] true)).

Definition toggle_finish : M unit :=
  enabled ← get secondary_monitors_enabled;
  when enabled (run_display_switch "/internal") ;;
  enabled ← get secondary_monitors_enabled;
  modify (set_secondary_monitors_enabled (negb enabled)) ;;
  update_tray_icon ;;
  update_tray_menu ;;
  nd ← get no_ddcci;
  when (negb nd) create_monitor_checkboxes.

(** The state [toggle_finish] leaves. *)
Definition finished (s : St) : St :=
  let enabled := secondary_monitors_enabled s in
  let flipped :=
    mkSt (no_ddcci s) (monitors s) (monitor_checkboxes s) (gridLayout_2 s) (settings s)
         (first_run s) (negb enabled)
         (mkTray (tray_variant (negb enabled)) (tray_theme (is_dark s))
                 (tray_menu_text (negb enabled)))
         (visible s) (settings_file s) (env_scan s) (scans_done s) (is_dark s)
         (log s ++ (if enabled then [EvDisplaySwitch "/internal"] else [])) in
  if no_ddcci s then flipped else rescanned flipped.

(** The DDC/CI calls of one toggle: one call per checked box, in dict order. *)
Definition ddc_calls (enable : bool) (d : list (string * bool)) : list event :=
  (λ name, EvToggleMonitors [name] enable) <$> checked_names d.

Definition is_ddc_call (enable : bool) (e : event) : Prop :=
  ∃ name, e = EvToggleMonitors [name] enable.

Definition is_scan (e : event) : Prop := ∃ rows, e = EvScan rows.

(** The state a toggle leaves when it runs to its end, having made the
    DDC/CI calls [cmds]. *)
Definition toggled (cmds : list event) (s : St) : St :=
  let enabled := secondary_monitors_enabled s in
  let flipped :=
    mkSt (no_ddcci s) (monitors s) (monitor_checkboxes s) (gridLayout_2 s) (settings s)
         (first_run s) (negb enabled)
         (mkTray (tray_variant (negb enabled)) (tray_theme (is_dark s))
                 (tray_menu_text (negb enabled)))
         (visible s) (settings_file s) (env_scan s) (scans_done s) (is_dark s)
         (log s ++ (if enabled then [] else [EvDisplaySwitch "/extend"]) ++ cmds ++
                   (if enabled then [EvDisplaySwitch "/internal"] else [])) in
  if no_ddcci s then flipped else rescanned flipped.

(** The calls a toggle makes from a coherent object. *)
Definition selected_calls (s : St) : list event :=
  if no_ddcci s then []
  else ddc_calls (negb (secondary_monitors_enabled s)) (default [] (monitor_checkboxes s)).

(** The member [key] of a settings document, if it is an object. *)
Definition json_member (key : string) (doc : json) : option json :=
  match doc with
  | JObj fields => dict_get key fields
  | _ => None
  end.

(** ** Invariants *)

(** Every write so far stayed within the scan of its time, [self.monitors]
    is the latest scan, and the object is coherent. *)
Definition sound (s : St) : Prop :=
  writes_within_scan [] (log s) ∧ last_scan [] (log s) = monitors s ∧ coherent s.

(** [s'] differs from [s0] at most in the checkboxes' states, the stored
    settings, the settings file and the log. *)
Definition same_window (s0 s' : St) : Prop :=
  no_ddcci s' = no_ddcci s0 ∧ monitors s' = monitors s0 ∧
  keys <$> monitor_checkboxes s' = keys <$> monitor_checkboxes s0 ∧
  gridLayout_2 s' = gridLayout_2 s0 ∧ first_run s' = first_run s0 ∧
  secondary_monitors_enabled s' = secondary_monitors_enabled s0 ∧
  tray_icon s' = tray_icon s0 ∧ visible s' = visible s0 ∧
  scans_done s' = scans_done s0.

(** ** Windows to state examples on *)

(** Rows of a desk with two secondary monitors behind the primary one. *)
Definition primary : Monitor := mkMonitor "1" "Primary" "Yes" "Yes".
Definition monitor1 (active : string) : Monitor := mkMonitor "2" "Monitor1" active "No".
Definition monitor2 (active : string) : Monitor := mkMonitor "3" "Monitor2" active "No".

(** The program is about to start with DDC/CI in use and no settings file;
    both secondary monitors are off, or both are on. *)
Definition desk_off : St :=
  fresh false None (λ _, [primary; monitor1 "No"; monitor2 "No"]) false.

Definition desk_on : St :=
  fresh false None (λ _, [primary; monitor1 "Yes"; monitor2 "Yes"]) false.

(** Both boxes checked by the user, once the window is up. *)
Definition both_checked (desk : St) : St :=
  (session [ClickCheckbox "Monitor1"; ClickCheckbox "Monitor2"] desk).2.

(** A window whose settings file carries a key of another program version. *)
Definition desk_with_theme : St :=
  fresh false
    (Some (Json_text (JObj [("theme", JStr "dark"); ("secondary_monitors", JArr [])])))
    (λ _, [primary; monitor1 "No"; monitor2 "No"]) false.

(** Two monitors report the same name: the scan has two rows ["Monitor1"]
    with ["No"] in column 3.  No settings file yet, or one that carries a
    key of another program version. *)
Definition monitor1_twin (active : string) : Monitor :=
  mkMonitor "3" "Monitor1" active "No".

Definition desk_twins : St :=
  fresh false None (λ _, [primary; monitor1 "No"; monitor1_twin "No"]) false.

Definition desk_twins_with_theme : St :=
  fresh false
    (Some (Json_text (JObj [("theme", JStr "dark"); ("secondary_monitors", JArr [])])))
    (λ _, [primary; monitor1 "No"; monitor1_twin "No"]) false.

(** After [Monitor1] was checked it is unplugged, and the user rescans. *)
Definition unplugged : St :=
  fresh false None
    (λ n, if (n <? 2)%nat then [primary; monitor1 "Yes"] else [primary]) false.

(** Two boxes were checked and saved in an earlier run; the program starts
    again on the file that run left. *)
Definition restarted (desk : St) : St :=
  (main (fresh (no_ddcci desk) (settings_file (both_checked desk))
           (env_scan desk) (is_dark desk))).2.

(** The displays of [desk_off] before the user toggles: desktop on the
    internal display only, [Monitor1] switched off. *)
Definition displays_off : Displays :=
  mkDisplays "/internal" {["Monitor1" := false]}.

(** [Monitor1] is off and its box is checked; the scans after the first
    toggle see it active. *)
Definition one_checked : St :=
  (session [ClickCheckbox "Monitor1"]
     (fresh false None
        (λ n, if (n <? 2)%nat then [primary; monitor1 "No"] else [primary; monitor1 "Yes"])
        false)).2.

(** ** Vocabulary of the further properties *)

(** One round of the loop of [load_settings] (line 97). *)
Definition load_round (monitor : string) : M unit :=
  cur ← get settings;
  stored ← py_get cur "secondary_monitors";
  b ← py_in monitor stored;
  checkbox_setChecked monitor b.

(** The test [monitor in container] as a function, for the containers that
    have one. *)
Definition container_has (container : json) : option (string → bool) :=
  match container with
  | JArr items => Some (λ monitor, existsb (is_JStr monitor) items)
  | JObj fields => Some (λ monitor, bool_decide (is_Some (dict_get monitor fields)))
  | JStr s => Some (λ monitor, is_substring monitor s)
  | _ => None
  end.

(** What [self.settings.get("secondary_monitors", [])] is for a dict. *)
Definition stored_selection (fields : list (string * json)) : json :=
  default (JArr []) (dict_get "secondary_monitors" fields).

(** The state in which the loop of [load_settings] has checked the box of
    [monitor], the boxes having been [d] before. *)
Definition box_restored (monitor : string) (d : list (string * bool)) (s : St) : St :=
  saved (dict_set monitor true d)
    (set_monitor_checkboxes (Some (dict_set monitor true d)) s).

(** The boxes of the dict are, in order, the ones
    [create_monitor_checkboxes] builds from [self.monitors]. *)
Definition boxes_match (s : St) : Prop :=
  no_ddcci s = false ∧
  keys <$> monitor_checkboxes s = Some (keys (built_checkboxes (monitors s))).

(** The tray shows the flag. *)
Definition tray_agrees (s : St) : Prop :=
  icon_variant (tray_icon s) = tray_variant (secondary_monitors_enabled s) ∧
  menu_toggle_text (tray_icon s) = tray_menu_text (secondary_monitors_enabled s).

(** [self.settings] is what the settings file holds, and the empty dict
    where no file decodes. *)
Definition mirrored (s : St) : Prop :=
  settings s = match settings_file s with
               | Some (Json_text doc) => doc
               | _ => JObj []
               end.

(** The state a toggle leaves under [--no-ddcci]. *)
Definition display_toggled (s : St) : St :=
  let enabled := secondary_monitors_enabled s in
  mkSt (no_ddcci s) (monitors s) (monitor_checkboxes s) (gridLayout_2 s) (settings s)
       (first_run s) (negb enabled)
       (mkTray (tray_variant (negb enabled)) (tray_theme (is_dark s))
               (tray_menu_text (negb enabled)))
       (visible s) (settings_file s) (env_scan s) (scans_done s) (is_dark s)
       (log s ++ [EvDisplaySwitch (if enabled then "/internal" else "/extend")]).

(** The display switches of [n] toggles in a row. *)
Fixpoint switches (enabled : bool) (n : nat) : list event :=
  match n with
  | 0 => []
  | S n' =>
      EvDisplaySwitch (if enabled then "/internal" else "/extend")
      :: switches (negb enabled) n'
  end.

Definition is_toggle (a : action) : bool :=
  match a with
  | ClickTray | MenuToggle => true
  | _ => false
  end.

(** Under [--no-ddcci] lines 40-42 hide the Rescan button and the monitor
    grid, which has no box: the tray and the window are all there is to
    click. *)
Definition tray_only (a : action) : bool :=
  match a with
  | ClickTray | MenuToggle | MenuSettings | CloseWindow => true
  | _ => false
  end.

(** The value of the flag [__init__] computes from a scan. *)
Definition active_secondary (rows : list Monitor) : bool :=
  bool_decide (0 < length (filter (λ m, is_active_secondary m = true) rows))%nat.

(** The first box, in dict order, whose name is among the saved [names]. *)
Definition first_saved (names : list string) (d : list (string * bool)) : option string :=
  find (λ k, bool_decide (k ∈ names)) (keys d).

(** The program about to start, with DDC/CI, on a settings file that
    decodes to [doc]. *)
Definition start_on (doc : json) (scan : nat → list Monitor) (dark : bool) : St :=
  fresh false (Some (Json_text doc)) scan dark.

(** Desks for the further properties: the two secondary monitors are
    attached, and the settings file decodes to [doc]. *)
Definition desk_on_file (doc : json) : St :=
  start_on doc (λ _, [primary; monitor1 "No"; monitor2 "No"]) false.

(** ** Running methods symbolically *)

Lemma bind_run {A B} (m : M A) (k : A → M B) (s : St) :
  (m ≫= k) s =
  match m s with
  | (Ok a, s') => k a s'
  | (Raise e, s') => (Raise e, s')
  end.
Proof. reflexivity. Qed.

Ltac run :=
  repeat first
    [ progress unfold mbind, mret, mthrow, M_bind, M_ret, M_throw,
        get, modify, emit, when, or_raise
    | progress cbn [fst snd
               no_ddcci monitors monitor_checkboxes gridLayout_2 settings first_run
               secondary_monitors_enabled tray_icon visible settings_file env_scan
               scans_done is_dark log
               set_monitors set_monitor_checkboxes set_gridLayout_2 set_settings
               set_first_run set_secondary_monitors_enabled set_tray_icon set_visible
               set_settings_file set_scans_done set_log] ].

Lemma hoare_bind {A B} (P : St → Prop) (R : res A → St → Prop) (Q : res B → St → Prop)
    (m : M A) (k : A → M B) :
  hoare P m R →
  (∀ a, hoare (R (Ok a)) (k a) Q) →
  (∀ e s, R (Raise e) s → Q (Raise e) s) →
  hoare P (m ≫= k) Q.
Proof.
  intros Hm Hk He s HP. specialize (Hm s HP). rewrite bind_run.
  destruct (m s) as [[a|e] s']; simpl in Hm.
  - apply Hk, Hm.
  - apply He, Hm.
Qed.

Lemma keeps_bind {A B} (I : St → Prop) (m : M A) (k : A → M B) :
  keeps I m → (∀ a, keeps I (k a)) → keeps I (m ≫= k).
Proof. intros Hm Hk. eapply hoare_bind; [exact Hm | exact Hk | auto]. Qed.

Lemma keeps_ret {A} (I : St → Prop) (a : A) : keeps I (mret a).
Proof. intros s Hs. exact Hs. Qed.

Lemma keeps_throw {A} (I : St → Prop) (e : exn) : keeps I (mthrow (A:=A) e).
Proof. intros s Hs. exact Hs. Qed.

Lemma keeps_get {A} (I : St → Prop) (field : St → A) : keeps I (get field).
Proof. intros s Hs. exact Hs. Qed.

Lemma keeps_or_raise {A} (I : St → Prop) (e : exn) (o : option A) : keeps I (or_raise e o).
Proof. destruct o; [apply keeps_ret | apply keeps_throw]. Qed.

Lemma keeps_when (I : St → Prop) (b : bool) (m : M unit) :
  keeps I m → keeps I (when b m).
Proof. destruct b; [auto | intros _; apply keeps_ret]. Qed.

Lemma keeps_for_each {A} (I : St → Prop) (xs : list A) (body : A → M unit) :
  (∀ x, x ∈ xs → keeps I (body x)) → keeps I (for_each xs body).
Proof.
  induction xs as [|x xs IH]; intros Hbody.
  - apply keeps_ret.
  - simpl. apply keeps_bind.
    + apply Hbody. left.
    + intros _. apply IH. intros y Hy. apply Hbody. right. exact Hy.
Qed.

Lemma keeps_except (I : St → Prop) (body : M unit) :
  keeps I body → keeps I (except_AttributeError_pass body).
Proof.
  intros Hb s Hs. specialize (Hb s Hs). unfold except_AttributeError_pass.
  destruct (body s) as [[[]|[]] s']; exact Hb.
Qed.

Lemma keeps_py_get (I : St → Prop) (value : json) (key : string) : keeps I (py_get value key).
Proof. destruct value; first [apply keeps_ret | apply keeps_throw]. Qed.

Lemma keeps_py_in (I : St → Prop) (monitor : string) (container : json) :
  keeps I (py_in monitor container).
Proof. destruct container; first [apply keeps_ret | apply keeps_throw]. Qed.

Lemma keeps_json_load (I : St → Prop) (text : file_content) : keeps I (json_load text).
Proof. destruct text; [apply keeps_ret | apply keeps_throw]. Qed.

Lemma for_each_unchanged {A} (xs : list A) (body : A → M unit) (s : St) :
  (∀ x, x ∈ xs → body x s = (Ok tt, s)) → for_each xs body s = (Ok tt, s).
Proof.
  induction xs as [|x xs IH]; intros Hbody; [reflexivity|].
  cbn [for_each]. rewrite bind_run, Hbody by left.
  apply IH. intros y Hy. apply Hbody. right. exact Hy.
Qed.

(** *** Dicts *)

Lemma keys_dict_set_present {V} (k : string) (v : V) (d : list (string * V)) :
  is_Some (dict_get k d) → keys (dict_set k v d) = keys d.
Proof.
  unfold keys. induction d as [|[k' v'] d IH]; cbn [dict_get dict_set];
    intros [x Hx]; [discriminate|].
  destruct (String.eqb k' k); rewrite !fmap_cons; [reflexivity|].
  rewrite IH by eauto. reflexivity.
Qed.

Lemma keys_dict_set_absent {V} (k : string) (v : V) (d : list (string * V)) :
  dict_get k d = None → keys (dict_set k v d) = keys d ++ [k].
Proof.
  unfold keys. induction d as [|[k' v'] d IH]; cbn [dict_get dict_set]; [reflexivity|].
  destruct (String.eqb k' k); [discriminate|].
  intros H. rewrite !fmap_cons, IH by exact H. reflexivity.
Qed.

Lemma elem_of_keys_dict_set {V} (k k0 : string) (v : V) (d : list (string * V)) :
  k0 ∈ keys (dict_set k v d) → k0 = k ∨ k0 ∈ keys d.
Proof.
  unfold keys. induction d as [|[k' v'] d IH]; cbn [dict_set].
  - intros H. apply list_elem_of_singleton in H. auto.
  - destruct (String.eqb k' k); rewrite !fmap_cons, !elem_of_cons; intuition.
Qed.

Lemma dict_get_is_Some {V} (k : string) (d : list (string * V)) :
  is_Some (dict_get k d) ↔ k ∈ keys d.
Proof.
  unfold keys. induction d as [|[k' v'] d IH]; cbn [dict_get].
  - split; [intros [? ?]; discriminate | intros H; inversion H].
  - rewrite fmap_cons, elem_of_cons. cbn [fst]. destruct (String.eqb_spec k' k) as [->|Hne].
    + split; eauto.
    + rewrite IH. split; [auto | intros [->|H]; [congruence | exact H]].
Qed.

Lemma dict_get_dict_set {V} (k : string) (v : V) (d : list (string * V)) :
  dict_get k (dict_set k v d) = Some v.
Proof.
  induction d as [|[k' v'] d IH]; simpl.
  - rewrite String.eqb_refl. reflexivity.
  - destruct (String.eqb k' k) eqn:E; simpl; rewrite E; [reflexivity | exact IH].
Qed.

Lemma elem_of_keys_dict_set_2 {V} (k k0 : string) (v : V) (d : list (string * V)) :
  k0 = k ∨ k0 ∈ keys d → k0 ∈ keys (dict_set k v d).
Proof.
  intros [->|H].
  - apply dict_get_is_Some. rewrite dict_get_dict_set. eauto.
  - destruct (dict_get k d) as [x|] eqn:Hk.
    + rewrite keys_dict_set_present by eauto. exact H.
    + rewrite keys_dict_set_absent by exact Hk. apply elem_of_app. auto.
Qed.

Lemma NoDup_keys_dict_set {V} (k : string) (v : V) (d : list (string * V)) :
  NoDup (keys d) → NoDup (keys (dict_set k v d)).
Proof.
  intros Hd. destruct (dict_get k d) as [x|] eqn:Hk.
  - rewrite keys_dict_set_present by eauto. exact Hd.
  - rewrite keys_dict_set_absent by exact Hk.
    apply NoDup_app. split; [exact Hd|]. split; [|apply NoDup_singleton].
    intros k0 Hk0 ->%list_elem_of_singleton.
    apply dict_get_is_Some in Hk0 as [? ?]. congruence.
Qed.

Lemma checked_names_cons (k : string) (c : bool) (d : list (string * bool)) :
  checked_names ((k, c) :: d) = if c then k :: checked_names d else checked_names d.
Proof.
  unfold checked_names, keys. destruct c.
  - rewrite filter_cons_True by reflexivity. reflexivity.
  - rewrite filter_cons_False by (simpl; discriminate). reflexivity.
Qed.

Lemma checked_names_keys (d : list (string * bool)) (k : string) :
  k ∈ checked_names d → k ∈ keys d.
Proof.
  unfold checked_names, keys. rewrite !list_elem_of_fmap.
  intros [item [-> H]]. apply list_elem_of_filter in H as [_ H]. eauto.
Qed.

Lemma checked_names_all_false (d : list (string * bool)) :
  Forall (λ item, snd item = false) d → checked_names d = [].
Proof.
  unfold checked_names, keys. induction 1 as [|[k v] d Hx Hd IH]; [reflexivity|].
  simpl in Hx. subst v. rewrite filter_cons_False by (simpl; discriminate). exact IH.
Qed.

Lemma checked_names_dict_set_true (k : string) (d : list (string * bool)) :
  is_Some (dict_get k d) → checked_names d = [] →
  checked_names (dict_set k true d) = [k].
Proof.
  induction d as [|[k' c] d IH]; cbn [dict_get dict_set]; intros [x Hx]; [discriminate|].
  rewrite !checked_names_cons.
  destruct (String.eqb_spec k' k) as [->|Hne].
  - rewrite checked_names_cons. destruct c; [discriminate|]. intros ->. reflexivity.
  - rewrite checked_names_cons. destruct c; [discriminate|].
    intros Hd. apply IH; eauto.
Qed.

Lemma dict_get_checked (d : list (string * bool)) (k : string) (c : bool) :
  NoDup (keys d) → dict_get k d = Some c → c = bool_decide (k ∈ checked_names d).
Proof.
  unfold keys. induction d as [|[k' c'] d IH]; cbn [dict_get]; [discriminate|].
  rewrite fmap_cons, NoDup_cons, checked_names_cons. cbn [fst]. intros [Hk' Hd].
  destruct (String.eqb_spec k' k) as [->|Hne].
  - intros [= <-]. destruct c'.
    + symmetry. apply bool_decide_eq_true. left.
    + symmetry. apply bool_decide_eq_false. intros Hin.
      apply Hk'. apply checked_names_keys, Hin.
  - intros Hget. rewrite (IH Hd Hget). apply bool_decide_ext.
    destruct c'; [|reflexivity]. rewrite elem_of_cons.
    split; [auto | intros [E|Hin]; [congruence | exact Hin]].
Qed.

Lemma existsb_is_JStr (k : string) (names : list string) :
  existsb (is_JStr k) (JStr <$> names) = bool_decide (k ∈ names).
Proof.
  induction names as [|name names IH]; [reflexivity|].
  rewrite fmap_cons. cbn [existsb is_JStr]. rewrite IH.
  destruct (String.eqb_spec name k) as [->|Hne].
  - symmetry. apply bool_decide_eq_true. left.
  - cbn [orb]. apply bool_decide_ext. rewrite elem_of_cons.
    split; [auto | intros [E|Hin]; [congruence | exact Hin]].
Qed.

Lemma py_get_settings_doc (names : list string) (s : St) :
  py_get (settings_doc names) "secondary_monitors" s = (Ok (JArr (JStr <$> names)), s).
Proof. reflexivity. Qed.

(** *** The checkboxes built from a scan *)

Lemma keys_foldl_add_checkbox (rows : list Monitor) : ∀ (d : list (string * bool)) (k : string),
  k ∈ keys (foldl add_checkbox d rows) → k ∈ keys d ∨ k ∈ eligible_names rows.
Proof.
  unfold eligible_names.
  induction rows as [|row rows IH]; intros d k; simpl; [auto|].
  intros H. apply IH in H. unfold add_checkbox in H.
  destruct (String.eqb_spec (mon_3 row) "No") as [E|E].
  - rewrite filter_cons_True by exact E. rewrite fmap_cons, elem_of_cons.
    destruct H as [H|H]; [|auto].
    apply elem_of_keys_dict_set in H. tauto.
  - rewrite filter_cons_False by exact E. exact H.
Qed.

Lemma keys_foldl_add_checkbox_2 (rows : list Monitor) : ∀ (d : list (string * bool)) (k : string),
  k ∈ keys d ∨ k ∈ eligible_names rows → k ∈ keys (foldl add_checkbox d rows).
Proof.
  unfold eligible_names.
  induction rows as [|row rows IH]; intros d k; cbn [foldl].
  - intros [H|H]; [exact H | inversion H].
  - intros H. apply IH. unfold add_checkbox.
    destruct (String.eqb_spec (mon_3 row) "No") as [E|E].
    + rewrite filter_cons_True in H by exact E. rewrite fmap_cons, elem_of_cons in H.
      destruct H as [H|[H|H]]; [| |auto]; left; apply elem_of_keys_dict_set_2; auto.
    + rewrite filter_cons_False in H by exact E. exact H.
Qed.

Lemma built_checkboxes_keys (rows : list Monitor) (k : string) :
  k ∈ keys (built_checkboxes rows) ↔ k ∈ eligible_names rows.
Proof.
  split.
  - intros H. apply keys_foldl_add_checkbox in H as [H|H]; [inversion H | exact H].
  - intros H. apply keys_foldl_add_checkbox_2. auto.
Qed.

Lemma NoDup_keys_foldl_add_checkbox (rows : list Monitor) : ∀ d : list (string * bool),
  NoDup (keys d) → NoDup (keys (foldl add_checkbox d rows)).
Proof.
  induction rows as [|row rows IH]; intros d Hd; cbn [foldl]; [exact Hd|].
  apply IH. unfold add_checkbox. destruct (String.eqb (mon_3 row) "No"); [|exact Hd].
  apply NoDup_keys_dict_set, Hd.
Qed.

Lemma built_checkboxes_NoDup (rows : list Monitor) : NoDup (keys (built_checkboxes rows)).
Proof. apply NoDup_keys_foldl_add_checkbox. constructor. Qed.

Lemma dict_set_all_false (k : string) (d : list (string * bool)) :
  Forall (λ item, snd item = false) d →
  Forall (λ item, snd item = false) (dict_set k false d).
Proof.
  induction 1 as [|[k' v'] d Hx Hd IH]; simpl.
  - repeat constructor.
  - destruct (String.eqb k' k); constructor; auto.
Qed.

Lemma foldl_add_checkbox_all_false (rows : list Monitor) : ∀ d : list (string * bool),
  Forall (λ item, snd item = false) d →
  Forall (λ item, snd item = false) (foldl add_checkbox d rows).
Proof.
  induction rows as [|row rows IH]; intros d Hd; simpl; [exact Hd|].
  apply IH. unfold add_checkbox. destruct (String.eqb (mon_3 row) "No"); [|exact Hd].
  apply dict_set_all_false, Hd.
Qed.

Lemma built_checkboxes_unchecked (rows : list Monitor) :
  checked_names (built_checkboxes rows) = [].
Proof.
  apply checked_names_all_false, foldl_add_checkbox_all_false. constructor.
Qed.

Lemma eligible_names_first_index (rows : list Monitor) (k : string) :
  k ∈ eligible_names rows →
  ∃ i row, first_index k rows = Some i ∧ rows !! i = Some row ∧ mon_1 row = k.
Proof.
  unfold eligible_names. rewrite list_elem_of_fmap.
  intros [m [-> Hm]]. apply list_elem_of_filter in Hm as [_ Hm].
  induction rows as [|row rows IH]; [inversion Hm|].
  simpl. destruct (String.eqb_spec (mon_1 row) (mon_1 m)) as [E|E].
  - exists 0, row. auto.
  - apply elem_of_cons in Hm as [->|Hm]; [congruence|].
    destruct (IH Hm) as (i & r & Hi & Hr & Hn).
    exists (S i), r. rewrite Hi. auto.
Qed.

(** ** The methods in closed form *)

Lemma create_loop (rows : list Monitor) : ∀ (s : St) (d : list (string * bool)),
  monitor_checkboxes s = Some d →
  for_each rows (λ monitor,
    when (String.eqb (mon_3 monitor) "No")
      (modify (λ s, set_gridLayout_2
                 (gridLayout_2 s ++ [QLabel (mon_1 monitor); QCheckBox (mon_1 monitor)]) s) ;;
       d ← self_monitor_checkboxes;
       modify (set_monitor_checkboxes (Some (dict_set (mon_1 monitor) false d))))) s
  = (Ok tt,
     set_gridLayout_2 (gridLayout_2 s ++ built_widgets rows)
       (set_monitor_checkboxes (Some (foldl add_checkbox d rows)) s)).
Proof.
  induction rows as [|row rows IH]; intros s d Hd.
  - destruct s; simpl in *; subst. rewrite app_nil_r. reflexivity.
  - cbn [for_each]. rewrite bind_run. unfold built_widgets. cbn [flat_map foldl].
    unfold add_checkbox at 2.
    destruct (String.eqb (mon_3 row) "No") eqn:E.
    + unfold self_monitor_checkboxes.
      run.
      rewrite Hd. run.
      erewrite IH by (run; reflexivity).
      destruct s; run. rewrite <- app_assoc. reflexivity.
    + run. erewrite IH by exact Hd. reflexivity.
Qed.

Lemma create_monitor_checkboxes_run (s : St) :
  create_monitor_checkboxes s = (Ok tt, rescanned s).
Proof.
  unfold create_monitor_checkboxes, clear_monitor_checkboxes, generate_monitors.
  run.
  erewrite create_loop by (run; reflexivity). reflexivity.
Qed.

Lemma save_settings_run (s : St) (d : list (string * bool)) :
  monitor_checkboxes s = Some d → save_settings s = (Ok tt, saved d s).
Proof.
  intros Hd. unfold save_settings, self_monitor_checkboxes, json_dump. run.
  rewrite Hd. reflexivity.
Qed.

Lemma checkbox_setChecked_run (s : St) (d : list (string * bool)) (monitor : string)
    (cur b : bool) :
  monitor_checkboxes s = Some d →
  dict_get monitor d = Some cur →
  checkbox_setChecked monitor b s =
  (Ok tt,
   if Bool.eqb cur b then s
   else saved (dict_set monitor b d)
          (set_monitor_checkboxes (Some (dict_set monitor b d)) s)).
Proof.
  intros Hd Hk. unfold checkbox_setChecked, self_monitor_checkboxes. run.
  rewrite Hd, Hk. destruct (Bool.eqb cur b); [reflexivity|].
  erewrite save_settings_run by (run; reflexivity). reflexivity.
Qed.

Lemma click_checkbox_run (s : St) (d : list (string * bool)) (monitor : string)
    (cur : bool) :
  monitor_checkboxes s = Some d →
  dict_get monitor d = Some cur →
  click_checkbox monitor s =
  (Ok tt,
   saved (dict_set monitor (negb cur) d)
     (set_monitor_checkboxes (Some (dict_set monitor (negb cur) d)) s)).
Proof.
  intros Hd Hk. unfold click_checkbox, self_monitor_checkboxes. run.
  rewrite Hd, Hk. erewrite checkbox_setChecked_run by eassumption.
  destruct cur; reflexivity.
Qed.

Lemma emitted_saved (d : list (string * bool)) (s : St) :
  drop (length (log s)) (log (saved d s)) = [EvWrite (settings_doc (checked_names d))].
Proof. unfold saved. cbn [log]. apply drop_app_length. Qed.

Lemma click_older_checkbox_run (s : St) (d : list (string * bool)) (monitor : string) :
  monitor_checkboxes s = Some d →
  (1 < length (filter (λ w, is_box_of monitor w = true) (gridLayout_2 s)))%nat →
  click_older_checkbox monitor s = (Ok tt, saved d s).
Proof.
  intros Hd Hold. unfold click_older_checkbox. run.
  apply Nat.ltb_lt in Hold. rewrite Hold. cbn [when].
  apply save_settings_run, Hd.
Qed.

Lemma load_settings_unfold (s : St) :
  load_settings s =
  match settings_file s with
  | Some (Json_text doc) => load_loop (set_settings doc s)
  | Some (Malformed_text _) => (Raise JSONDecodeError, s)
  | None => (Ok tt, set_first_run true s)
  end.
Proof.
  destruct s as [nd ms cbs gl st fr en tr vis file scan n dark lg].
  destruct file as [[doc|raw]|]; reflexivity.
Qed.


Lemma QMS_init_run (nd : bool) (file : option file_content)
    (scan : nat → list Monitor) (dark : bool) :
  QMS_init (fresh nd file scan dark) = load_settings (constructed nd file scan dark).
Proof.
  unfold QMS_init, init_ui, generate_monitors, get_active_monitors, create_tray_icon.
  destruct nd; run.
  - reflexivity.
  - rewrite create_monitor_checkboxes_run. reflexivity.
Qed.

(** *** Toggling *)

Lemma set_log_same (s : St) : set_log (log s ++ []) s = s.
Proof. destruct s; simpl. rewrite app_nil_r. reflexivity. Qed.

Lemma set_log_twice (s : St) (tr1 tr2 : list event) :
  set_log (log (set_log (log s ++ tr1) s) ++ tr2) (set_log (log s ++ tr1) s)
  = set_log (log s ++ tr1 ++ tr2) s.
Proof. destruct s; simpl. rewrite <- app_assoc. reflexivity. Qed.

Lemma toggle_loop (d : list (string * bool)) : ∀ s : St,
  ∃ r cmds,
    toggle_ddc_loop d s = (r, set_log (log s ++ cmds) s) ∧
    Forall (is_ddc_call (negb (secondary_monitors_enabled s))) cmds ∧
    ((∀ k, k ∈ checked_names d → k ∈ eligible_names (monitors s)) →
     r = Ok tt ∧ cmds = ddc_calls (negb (secondary_monitors_enabled s)) d).
Proof.
  unfold toggle_ddc_loop.
  match goal with |- ∀ s, ∃ r cmds, for_each d ?b s = _ ∧ _ => set (body := b) end.
  induction d as [|[k c] d IH]; intros s.
  - exists (Ok tt), []. rewrite set_log_same. repeat split; constructor.
  - cbn [for_each]. rewrite bind_run. unfold ddc_calls. rewrite checked_names_cons.
    unfold body at 1. destruct c; cbn [snd fst when].
    + unfold toggle_monitors. run.
      destruct (first_index k (monitors s)) as [i|] eqn:Hi.
      * destruct (monitors s !! i) as [row|] eqn:Hrow.
        -- set (e := EvToggleMonitors [mon_1 row] (negb (secondary_monitors_enabled s))).
           destruct (IH (set_log (log s ++ [e]) s)) as (r & cmds & Hrun & Hcmds & Hok).
           exists r, (e :: cmds). split; [|split].
           ++ subst e. revert Hrun. clear.
              destruct (secondary_monitors_enabled s); cbv beta iota; cbn [negb];
                intros ->; rewrite set_log_twice; reflexivity.
           ++ constructor; [exists (mon_1 row); reflexivity | exact Hcmds].
           ++ intros Hin. simpl in Hok.
              destruct Hok as [-> ->]; [intros k' Hk'; apply Hin; right; exact Hk'|].
              split; [reflexivity|]. rewrite fmap_cons. f_equal.
              destruct (eligible_names_first_index (monitors s) k) as (i' & row' & Hi' & Hrow' & Hn);
                [apply Hin; left|].
              subst e. congruence.
        -- exists (Raise IndexError), []. rewrite set_log_same.
           split; [reflexivity|]. split; [constructor|]. intros Hin. exfalso.
           destruct (eligible_names_first_index (monitors s) k) as (i' & row' & Hi' & Hrow' & Hn);
             [apply Hin; left | congruence].
      * exists (Raise StopIteration), []. rewrite set_log_same.
        split; [reflexivity|]. split; [constructor|]. intros Hin. exfalso.
        destruct (eligible_names_first_index (monitors s) k) as (i' & row' & Hi' & Hrow' & Hn);
          [apply Hin; left | congruence].
    + run. apply IH.
Qed.

Lemma toggle_unfold (s : St) :
  toggle_secondary_monitors s =
  let s1 := if secondary_monitors_enabled s then s
            else set_log (log s ++ [EvDisplaySwitch "/extend"]) s in
  if no_ddcci s then toggle_finish s1
  else match monitor_checkboxes s with
       | None => (Raise AttributeError, s1)
       | Some d =>
           match toggle_ddc_loop d s1 with
           | (Ok _, s2) => toggle_finish s2
           | (Raise e, s2) => (Raise e, s2)
           end
       end.
Proof.
  destruct s as [nd ms cbs gl st fr en tr vis file scan n dark lg].
  destruct en, nd, cbs; reflexivity.
Qed.

Lemma toggle_finish_run (s : St) : toggle_finish s = (Ok tt, finished s).
Proof.
  destruct s as [nd ms cbs gl st fr en tr vis file scan n dark lg].
  unfold toggle_finish, finished, update_tray_icon, update_tray_menu, run_display_switch.
  destruct en, nd; run; rewrite ?create_monitor_checkboxes_run, ?app_nil_r; reflexivity.
Qed.

Lemma toggle_run (s : St) :
  ∃ cmds,
    Forall (is_ddc_call (negb (secondary_monitors_enabled s))) cmds ∧
    (toggle_secondary_monitors s = (Ok tt, toggled cmds s) ∨
     ∃ e, toggle_secondary_monitors s =
          (Raise e,
           set_log (log s ++ (if secondary_monitors_enabled s then []
                              else [EvDisplaySwitch "/extend"]) ++ cmds) s)) ∧
    (coherent s → cmds = selected_calls s ∧
                  toggle_secondary_monitors s = (Ok tt, toggled cmds s)).
Proof.
  rewrite toggle_unfold. cbv zeta.
  set (s1 := if secondary_monitors_enabled s then s
             else set_log (log s ++ [EvDisplaySwitch "/extend"]) s).
  assert (Hs1 : s1 = set_log (log s ++ (if secondary_monitors_enabled s then []
                                        else [EvDisplaySwitch "/extend"])) s).
  { subst s1. destruct (secondary_monitors_enabled s); [|reflexivity].
    symmetry. apply set_log_same. }
  unfold selected_calls.
  destruct (no_ddcci s) eqn:Hnd; [|destruct (monitor_checkboxes s) as [d|] eqn:Hd].
  - exists []. split; [constructor|].
    assert (toggle_finish s1 = (Ok tt, toggled [] s)) as ->.
    { rewrite toggle_finish_run, Hs1. unfold finished, toggled. run. rewrite Hnd.
      destruct s; simpl. rewrite <- app_assoc. reflexivity. }
    tauto.
  - destruct (toggle_loop d s1) as (r & cmds & Hrun & Hcmds & Hok).
    exists cmds. rewrite Hrun.
    assert (Hen : secondary_monitors_enabled s1 = secondary_monitors_enabled s)
      by (rewrite Hs1; reflexivity).
    assert (Hms : monitors s1 = monitors s) by (rewrite Hs1; reflexivity).
    rewrite Hen in Hcmds, Hok. rewrite Hms in Hok.
    split; [exact Hcmds|].
    assert (Hfin : toggle_finish (set_log (log s1 ++ cmds) s1) = (Ok tt, toggled cmds s)).
    { rewrite toggle_finish_run, Hs1. unfold finished, toggled. run. rewrite Hnd.
      destruct s; simpl. rewrite <- !app_assoc. reflexivity. }
    assert (Hlog : set_log (log s1 ++ cmds) s1
                   = set_log (log s ++ (if secondary_monitors_enabled s then []
                                        else [EvDisplaySwitch "/extend"]) ++ cmds) s).
    { rewrite Hs1. apply set_log_twice. }
    split.
    + destruct r as [[]|e]; [left; exact Hfin | right; exists e; rewrite Hlog; reflexivity].
    + intros [_ Hc]. destruct Hok as [-> ->].
      * intros k Hk. apply (Hc d Hd), checked_names_keys, Hk.
      * split; [reflexivity | exact Hfin].
  - exists []. split; [constructor|]. split.
    + right. exists AttributeError. rewrite Hs1, app_nil_r. reflexivity.
    + intros [Hsome _]. destruct (Hsome Hnd) as [? ?]; congruence.
Qed.

(** ** The invariant of a running window *)

Lemma last_scan_snoc (last : list Monitor) (tr : list event) (e : event) :
  last_scan last (tr ++ [e]) =
  match e with
  | EvScan rows => rows
  | _ => last_scan last tr
  end.
Proof.
  revert last. induction tr as [|e' tr IH]; intros last.
  - destruct e; reflexivity.
  - destruct e'; simpl; apply IH.
Qed.

Lemma writes_within_scan_snoc (last : list Monitor) (tr : list event) (e : event) :
  writes_within_scan last (tr ++ [e]) ↔
  writes_within_scan last tr ∧
  match e with
  | EvWrite doc => names_within doc (last_scan last tr)
  | _ => True
  end.
Proof.
  revert last. induction tr as [|e' tr IH]; intros last.
  - destruct e; simpl; tauto.
  - destruct e'; simpl; rewrite IH; tauto.
Qed.

Lemma secondary_monitors_of_settings_doc (names : list string) :
  secondary_monitors_of (settings_doc names) = JStr <$> names.
Proof. reflexivity. Qed.

Lemma names_within_settings_doc (names : list string) (rows : list Monitor) :
  (∀ k, k ∈ names → k ∈ eligible_names rows) →
  names_within (settings_doc names) rows.
Proof.
  intros H j. rewrite secondary_monitors_of_settings_doc, list_elem_of_fmap.
  intros [k [-> Hk]]. eauto.
Qed.

Lemma sound_frame (s s' : St) :
  no_ddcci s' = no_ddcci s → monitors s' = monitors s →
  monitor_checkboxes s' = monitor_checkboxes s → log s' = log s →
  sound s → sound s'.
Proof.
  unfold sound, coherent. intros -> -> -> ->. tauto.
Qed.

Lemma keeps_sound_modify (f : St → St) :
  (∀ s, no_ddcci (f s) = no_ddcci s ∧ monitors (f s) = monitors s ∧
        monitor_checkboxes (f s) = monitor_checkboxes s ∧ log (f s) = log s) →
  keeps sound (modify f).
Proof.
  intros Hf s Hs. destruct (Hf s) as (? & ? & ? & ?).
  unfold modify; simpl. eapply sound_frame; eauto.
Qed.

Lemma keeps_sound_call (e : event) :
  match e with EvDisplaySwitch _ | EvToggleMonitors _ _ => True | _ => False end →
  keeps sound (emit e).
Proof.
  intros He s (Hw & Hl & Hc). unfold emit, modify; simpl.
  split; [|split]; simpl.
  - apply writes_within_scan_snoc. split; [exact Hw|]. destruct e; tauto.
  - rewrite last_scan_snoc. destruct e; tauto.
  - exact Hc.
Qed.

Lemma sound_rescanned (s : St) : sound s → sound (rescanned s).
Proof.
  intros (Hw & Hl & Hc). unfold rescanned. split; [|split]; simpl.
  - apply writes_within_scan_snoc. tauto.
  - apply last_scan_snoc.
  - split; simpl; [eauto|].
    intros d [= <-]. split; [apply built_checkboxes_NoDup|].
    intros k Hk. apply built_checkboxes_keys, Hk.
Qed.

Lemma coherent_rescanned (s : St) : no_ddcci s = false → coherent (rescanned s).
Proof.
  intros Hnd. split; cbn [rescanned no_ddcci monitor_checkboxes monitors]; [eauto|].
  intros d [= <-]. split; [apply built_checkboxes_NoDup|].
  intros k Hk. apply built_checkboxes_keys, Hk.
Qed.

Lemma keeps_sound_create : keeps sound create_monitor_checkboxes.
Proof.
  intros s Hs. rewrite create_monitor_checkboxes_run. apply sound_rescanned, Hs.
Qed.

Lemma sound_saved (s : St) (d : list (string * bool)) :
  monitor_checkboxes s = Some d → sound s → sound (saved d s).
Proof.
  intros Hd (Hw & Hl & Hc). unfold saved. split; [|split]; simpl.
  - apply writes_within_scan_snoc. split; [exact Hw|].
    apply names_within_settings_doc. intros k Hk. rewrite Hl.
    destruct Hc as [_ Hc]. eapply (Hc d Hd). apply checked_names_keys, Hk.
  - rewrite last_scan_snoc. exact Hl.
  - exact Hc.
Qed.

Lemma save_settings_unset (s : St) :
  monitor_checkboxes s = None → save_settings s = (Raise AttributeError, s).
Proof.
  intros Hd. unfold save_settings, self_monitor_checkboxes. run.
  rewrite Hd. reflexivity.
Qed.

Lemma keeps_sound_save : keeps sound save_settings.
Proof.
  intros s Hs. destruct (monitor_checkboxes s) as [d|] eqn:Hd.
  - rewrite (save_settings_run s d Hd). apply sound_saved; assumption.
  - rewrite (save_settings_unset s Hd). exact Hs.
Qed.

Lemma sound_set_box (s : St) (d : list (string * bool)) (monitor : string) (b : bool) :
  monitor_checkboxes s = Some d → is_Some (dict_get monitor d) →
  sound s → sound (set_monitor_checkboxes (Some (dict_set monitor b d)) s).
Proof.
  intros Hd Hk (Hw & Hl & [Hn Hc]). split; [|split]; simpl; [exact Hw | exact Hl |].
  split; simpl; [eauto|].
  intros d' [= <-]. rewrite keys_dict_set_present by exact Hk. apply Hc, Hd.
Qed.

Lemma keeps_sound_setChecked (monitor : string) (b : bool) :
  keeps sound (checkbox_setChecked monitor b).
Proof.
  intros s Hs. unfold checkbox_setChecked, self_monitor_checkboxes. run.
  destruct (monitor_checkboxes s) as [d|] eqn:Hd; [|exact Hs].
  destruct (dict_get monitor d) as [cur|] eqn:Hk; [|exact Hs].
  destruct (Bool.eqb cur b); [exact Hs|].
  erewrite save_settings_run by (run; reflexivity).
  apply sound_saved; [reflexivity|]. apply sound_set_box; eauto.
Qed.

Lemma keeps_sound_click (monitor : string) : keeps sound (click_checkbox monitor).
Proof.
  unfold click_checkbox, self_monitor_checkboxes.
  apply keeps_bind; [apply keeps_bind; [apply keeps_get | apply keeps_or_raise]|].
  intros d. destruct (dict_get monitor d); [apply keeps_sound_setChecked | apply keeps_ret].
Qed.

Lemma keeps_sound_load : keeps sound load_settings.
Proof.
  unfold load_settings. apply keeps_bind; [apply keeps_get|]. intros [text|].
  - apply keeps_bind; [apply keeps_json_load|]. intros doc.
    apply keeps_bind; [apply keeps_sound_modify; intros s; simpl; auto|]. intros _.
    apply keeps_except. unfold self_monitor_checkboxes.
    apply keeps_bind; [apply keeps_bind; [apply keeps_get | apply keeps_or_raise]|].
    intros d. apply keeps_for_each. intros monitor _.
    apply keeps_bind; [apply keeps_get|]. intros cur.
    apply keeps_bind; [apply keeps_py_get|]. intros stored.
    apply keeps_bind; [apply keeps_py_in|]. intros b.
    apply keeps_sound_setChecked.
  - apply keeps_sound_modify; intros s; simpl; auto.
Qed.

Lemma keeps_sound_toggle : keeps sound toggle_secondary_monitors.
Proof.
  unfold toggle_secondary_monitors, update_tray_icon, update_tray_menu,
    run_display_switch, toggle_monitors, self_monitor_checkboxes.
  repeat first
    [ apply keeps_get | apply keeps_or_raise | apply keeps_sound_create
    | apply keeps_sound_call; exact I
    | apply keeps_sound_modify; intros s; simpl; tauto
    | apply keeps_when
    | apply keeps_for_each; intros item _
    | apply keeps_bind; [|intros ?]
    | match goal with |- keeps _ (if ?b then _ else _) => destruct b end ].
Qed.

Lemma keeps_sound_handle (a : action) : keeps sound (handle a).
Proof.
  destruct a; simpl.
  - apply keeps_sound_click.
  - apply keeps_bind; [apply keeps_get|]. intros grid.
    apply keeps_when, keeps_sound_save.
  - apply keeps_sound_create.
  - apply keeps_sound_toggle.
  - apply keeps_sound_toggle.
  - apply keeps_sound_modify; intros s; simpl; auto.
  - apply keeps_sound_modify; intros s; simpl; auto.
Qed.

Lemma keeps_sound_run_actions (acts : list action) : keeps sound (run_actions acts).
Proof. apply keeps_for_each. intros a _. apply keeps_sound_handle. Qed.

Lemma sound_constructed (nd : bool) (file : option file_content)
    (scan : nat → list Monitor) (dark : bool) :
  sound (constructed nd file scan dark).
Proof.
  unfold sound, coherent, constructed. destruct nd; simpl.
  - split; [exact I|]. split; [reflexivity|]. split; [discriminate | intros ? [=]].
  - split; [exact I|]. split; [reflexivity|]. split; [eauto|].
    intros d [= <-]. split; [apply built_checkboxes_NoDup|].
    intros k Hk. apply built_checkboxes_keys, Hk.
Qed.

Lemma sound_QMS_init (nd : bool) (file : option file_content)
    (scan : nat → list Monitor) (dark : bool) :
  sound (QMS_init (fresh nd file scan dark)).2.
Proof. rewrite QMS_init_run. apply keeps_sound_load, sound_constructed. Qed.

Lemma sound_main (nd : bool) (file : option file_content)
    (scan : nat → list Monitor) (dark : bool) :
  sound (main (fresh nd file scan dark)).2.
Proof.
  unfold main. rewrite bind_run.
  pose proof (sound_QMS_init nd file scan dark) as H.
  destruct (QMS_init (fresh nd file scan dark)) as [[[]|e] s]; simpl in H; [|exact H].
  revert s H. change (keeps sound (fr ← get first_run; when fr show)).
  apply keeps_bind; [apply keeps_get|]. intros fr. apply keeps_when.
  apply keeps_sound_modify; intros s; simpl; auto.
Qed.

Lemma sound_session (nd : bool) (file : option file_content)
    (scan : nat → list Monitor) (dark : bool) (acts : list action) :
  sound (session acts (fresh nd file scan dark)).2.
Proof.
  unfold session. rewrite bind_run.
  pose proof (sound_main nd file scan dark) as H.
  destruct (main (fresh nd file scan dark)) as [[[]|e] s]; simpl in H; [|exact H].
  apply keeps_sound_run_actions, H.
Qed.

Lemma coherent_both_checked (desk : St) : desk = desk_off ∨ desk = desk_on →
  coherent (both_checked desk).
Proof. intros [-> | ->]; apply sound_session. Qed.

(** *** What one toggle adds to the log *)

(** With DDC/CI in use a toggle that returns has rebuilt the checkboxes
    from a new scan. *)
Lemma toggled_rebuilds (cmds : list event) (s : St) :
  no_ddcci s = false →
  no_ddcci (toggled cmds s) = false ∧
  monitor_checkboxes (toggled cmds s)
    = Some (built_checkboxes (env_scan s (scans_done s))) ∧
  coherent (toggled cmds s).
Proof.
  intros Hnd. unfold toggled. rewrite Hnd.
  split; [reflexivity|]. split; [reflexivity|].
  apply coherent_rescanned. reflexivity.
Qed.

(** What one toggle adds to the log: the opening display switch (when the
    monitors were off), the DDC/CI calls, the closing display switch (when
    they were on, and the method got that far), and a rescan. *)
Lemma toggle_emitted (s : St) :
  ∃ cmds post scans : list event,
    emitted toggle_secondary_monitors s
    = (if secondary_monitors_enabled s then [] else [EvDisplaySwitch "/extend"])
      ++ cmds ++ post ++ scans ∧
    Forall (is_ddc_call (negb (secondary_monitors_enabled s))) cmds ∧
    Forall is_scan scans ∧
    (post = (if secondary_monitors_enabled s then [EvDisplaySwitch "/internal"] else []) ∨
     post = [] ∧ (toggle_secondary_monitors s).1 ≠ Ok tt) ∧
    (coherent s → (toggle_secondary_monitors s).1 = Ok tt ∧ cmds = selected_calls s).
Proof.
  destruct (toggle_run s) as (cmds & Hcmds & Hrun & Hco).
  exists cmds.
  assert (Hok : toggle_secondary_monitors s = (Ok tt, toggled cmds s) →
    ∃ scans, emitted toggle_secondary_monitors s
      = (if secondary_monitors_enabled s then [] else [EvDisplaySwitch "/extend"])
        ++ cmds ++ (if secondary_monitors_enabled s then [EvDisplaySwitch "/internal"] else [])
        ++ scans ∧ Forall is_scan scans).
  { intros E. unfold emitted. rewrite E. unfold toggled. cbn [snd].
    destruct (no_ddcci s).
    - exists []. split; [|constructor]. cbn [log]. rewrite drop_app_length, app_nil_r.
      reflexivity.
    - eexists [_]. split; [|repeat constructor; eexists; reflexivity].
      unfold rescanned. cbn [log]. rewrite <- app_assoc, drop_app_length, <- !app_assoc.
      reflexivity. }
  destruct Hrun as [E|[e E]].
  - destruct (Hok E) as (scans & Htr & Hscans).
    exists (if secondary_monitors_enabled s then [EvDisplaySwitch "/internal"] else []), scans.
    split; [exact Htr|]. split; [exact Hcmds|]. split; [exact Hscans|].
    split; [left; reflexivity|].
    intros Hc. destruct (Hco Hc) as [-> ->]. split; reflexivity.
  - exists [], [].
    split; [|split; [exact Hcmds|split; [constructor|split]]].
    + unfold emitted. rewrite E. cbn [snd]. destruct s; simpl.
      rewrite drop_app_length, app_nil_r. reflexivity.
    + right. split; [reflexivity|]. rewrite E. discriminate.
    + intros Hc. destruct (Hco Hc) as [_ E']. rewrite E' in E. discriminate.
Qed.

Lemma not_ddc_call_in_tail (enabled : bool) (post scans : list event) (e : event)
    (names : list string) (enable : bool) :
  post = (if enabled then [EvDisplaySwitch "/internal"] else []) ∨ post = [] →
  Forall is_scan scans →
  e ∈ post ++ scans → e ≠ EvToggleMonitors names enable.
Proof.
  intros Hpost Hscans He ->. apply elem_of_app in He as [He|He].
  - destruct Hpost as [-> | ->]; [destruct enabled|];
      first [ apply list_elem_of_singleton in He; discriminate | inversion He ].
  - rewrite Forall_forall in Hscans. destruct (Hscans _ He) as [rows [=]].
Qed.

Lemma display_switch_in_tail (enabled : bool) (cmds post scans : list event) (arg : string) :
  Forall (is_ddc_call (negb enabled)) cmds →
  post = (if enabled then [EvDisplaySwitch "/internal"] else []) ∨ post = [] →
  Forall is_scan scans →
  EvDisplaySwitch arg ∈ cmds ++ post ++ scans →
  enabled = true ∧ arg = "/internal".
Proof.
  intros Hcmds Hpost Hscans He. rewrite Forall_forall in Hcmds, Hscans.
  rewrite !elem_of_app in He. destruct He as [He|[He|He]].
  - destruct (Hcmds _ He) as [name [=]].
  - destruct Hpost as [-> | ->]; [destruct enabled|];
      first [ apply list_elem_of_singleton in He; injection He as ->; auto
            | inversion He ].
  - destruct (Hscans _ He) as [rows [=]].
Qed.

(** *** What loading leaves alone *)

Lemma same_window_refl (s : St) : same_window s s.
Proof. repeat split. Qed.

Lemma keeps_same_window_setChecked (s0 : St) (monitor : string) (b : bool) :
  keeps (same_window s0) (checkbox_setChecked monitor b).
Proof.
  intros s Hs. unfold checkbox_setChecked, self_monitor_checkboxes. run.
  destruct (monitor_checkboxes s) as [d|] eqn:Hd; [|exact Hs].
  destruct (dict_get monitor d) as [cur|] eqn:Hk; [|exact Hs].
  destruct (Bool.eqb cur b); [exact Hs|].
  erewrite save_settings_run by (run; reflexivity).
  unfold same_window, saved in *. run. rewrite Hd in Hs.
  cbn [fmap option_fmap option_map] in *.
  rewrite keys_dict_set_present by eauto. exact Hs.
Qed.

Lemma keeps_same_window_load_loop (s0 : St) : keeps (same_window s0) load_loop.
Proof.
  apply keeps_except. unfold self_monitor_checkboxes.
  apply keeps_bind; [apply keeps_bind; [apply keeps_get | apply keeps_or_raise]|].
  intros d. apply keeps_for_each. intros monitor _.
  apply keeps_bind; [apply keeps_get|]. intros cur.
  apply keeps_bind; [apply keeps_py_get|]. intros stored.
  apply keeps_bind; [apply keeps_py_in|]. intros b.
  apply keeps_same_window_setChecked.
Qed.

(** Loading changes nothing of the window but [first_run], and that only
    when there is no file. *)
Lemma load_settings_frame (s : St) :
  let s' := (load_settings s).2 in
  no_ddcci s' = no_ddcci s ∧ monitors s' = monitors s ∧
  secondary_monitors_enabled s' = secondary_monitors_enabled s ∧
  visible s' = visible s ∧
  first_run s' = match settings_file s with Some _ => first_run s | None => true end.
Proof.
  rewrite load_settings_unfold.
  destruct (settings_file s) as [[doc|raw]|] eqn:Hf; cbv zeta; cbn [snd]; auto.
  destruct (keeps_same_window_load_loop s (set_settings doc s))
    as (? & ? & _ & _ & ? & ? & _ & ? & _); [repeat split|].
  auto.
Qed.

(** Within one session the file is read back as it was written: loading
    right after saving finds every box in the state the file gives it, so
    no box changes and nothing is written again. *)
Lemma load_after_save_changes_nothing (s : St) (d : list (string * bool)) :
  monitor_checkboxes s = Some d → NoDup (keys d) →
  load_settings (saved d s) = (Ok tt, saved d s).
Proof.
  intros Hd Hnd. rewrite load_settings_unfold. cbn [saved settings_file].
  fold (saved d s).
  replace (set_settings (settings_doc (checked_names d)) (saved d s)) with (saved d s)
    by reflexivity.
  unfold load_loop, except_AttributeError_pass, self_monitor_checkboxes.
  rewrite bind_run. run. cbn [saved monitor_checkboxes]. rewrite Hd.
  fold (saved d s).
  rewrite for_each_unchanged; [reflexivity|].
  intros monitor Hmon. apply dict_get_is_Some in Hmon as [c Hc].
  change (settings (saved d s)) with (settings_doc (checked_names d)).
  rewrite py_get_settings_doc. cbn [py_in]. unfold mret, M_ret. cbv beta iota.
  rewrite existsb_is_JStr, <- (dict_get_checked d monitor c Hnd Hc).
  erewrite checkbox_setChecked_run; [|exact Hd|exact Hc].
  rewrite Bool.eqb_reflx. reflexivity.
Qed.

(** ** The claims *)

(** C1. In one call of [toggle_secondary_monitors] the display switch
    brackets the DDC/CI calls.  When the secondary monitors are off, the
    first call made is [run_display_switch("/extend")], every DDC/CI call
    is an enable and comes after it, and no other display switch is made.
    When they are on, every DDC/CI call is a disable, the only display switch
    is [run_display_switch("/internal")], it comes after every disable, and
    it is made whenever the method returns.  From a coherent object the
    method does return, and each checked box gets its call. *)
Theorem toggle_display_switch_brackets_ddc_calls (s : St) :
  let tr := emitted toggle_secondary_monitors s in
  (if secondary_monitors_enabled s then
     (∀ (i : nat) names enable,
        tr !! i = Some (EvToggleMonitors names enable) → enable = false) ∧
     (∀ (j : nat) arg, tr !! j = Some (EvDisplaySwitch arg) → arg = "/internal") ∧
     (∀ (i j : nat) names,
        tr !! i = Some (EvToggleMonitors names false) →
        tr !! j = Some (EvDisplaySwitch "/internal") → (i < j)%nat) ∧
     ((toggle_secondary_monitors s).1 = Ok tt →
      ∃ j : nat, tr !! j = Some (EvDisplaySwitch "/internal"))
   else
     tr !! 0%nat = Some (EvDisplaySwitch "/extend") ∧
     (∀ (i : nat) names enable,
        tr !! i = Some (EvToggleMonitors names enable) → enable = true) ∧
     (∀ (j : nat) arg, tr !! j = Some (EvDisplaySwitch arg) → arg = "/extend") ∧
     (∀ (i j : nat) names,
        tr !! j = Some (EvDisplaySwitch "/extend") →
        tr !! i = Some (EvToggleMonitors names true) → (j < i)%nat)) ∧
  (coherent s →
   (toggle_secondary_monitors s).1 = Ok tt ∧
   (no_ddcci s = false →
    ∀ d name, monitor_checkboxes s = Some d → name ∈ checked_names d →
      ∃ i : nat,
        tr !! i = Some (EvToggleMonitors [name] (negb (secondary_monitors_enabled s))))).
Proof.
  intros tr. subst tr.
  destruct (toggle_emitted s) as (cmds & post & scans & -> & Hcmds & Hscans & Hpost & Hco).
  assert (Hpost' : post = (if secondary_monitors_enabled s
                           then [EvDisplaySwitch "/internal"] else []) ∨ post = [])
    by tauto.
  assert (Hcall : ∀ e names enable, e = EvToggleMonitors names enable →
            e ∈ cmds → enable = negb (secondary_monitors_enabled s)).
  { intros e names enable -> He. rewrite Forall_forall in Hcmds.
    destruct (Hcmds _ He) as [name [= _ ->]]. reflexivity. }
  split.
  - destruct (secondary_monitors_enabled s) eqn:En; cbn [app].
    + assert (Hi : ∀ (i : nat) names enable,
                (cmds ++ post ++ scans) !! i = Some (EvToggleMonitors names enable) →
                i < length cmds ∧ enable = false).
      { intros i names enable H. apply lookup_app_Some in H as [H|[_ H]].
        - split; [eapply lookup_lt_Some, H|].
          eapply Hcall; [reflexivity | eapply list_elem_of_lookup_2, H].
        - apply list_elem_of_lookup_2 in H.
          exfalso. eapply (not_ddc_call_in_tail true); eauto. }
      assert (Hj : ∀ (j : nat) arg,
                (cmds ++ post ++ scans) !! j = Some (EvDisplaySwitch arg) →
                (length cmds ≤ j)%nat ∧ arg = "/internal").
      { intros j arg H. split.
        - apply lookup_app_Some in H as [H|[H _]]; [|exact H].
          apply list_elem_of_lookup_2 in H. rewrite Forall_forall in Hcmds.
          destruct (Hcmds _ H) as [name [=]].
        - apply list_elem_of_lookup_2 in H.
          eapply (display_switch_in_tail true), H; eauto. }
      split; [intros i names enable H; apply (Hi _ _ _ H)|].
      split; [intros j arg H; apply (Hj _ _ H)|].
      split.
      * intros i j names H1 H2. apply Hi in H1 as [H1 _]. apply Hj in H2 as [H2 _]. lia.
      * intros Hok. destruct Hpost as [-> | [_ Hne]]; [|contradiction].
        exists (length cmds). apply list_lookup_middle. reflexivity.
    + assert (Hi : ∀ (i : nat) names enable,
                ((EvDisplaySwitch "/extend" :: cmds ++ post ++ scans) : list event) !! i
                  = Some (EvToggleMonitors names enable) →
                0 < i ∧ enable = true).
      { intros [|i] names enable H; [discriminate|]. split; [lia|]. cbn in H.
        apply lookup_app_Some in H as [H|[_ H]].
        - eapply Hcall; [reflexivity | eapply list_elem_of_lookup_2, H].
        - apply list_elem_of_lookup_2 in H.
          exfalso. eapply (not_ddc_call_in_tail false); eauto. }
      assert (Hj : ∀ (j : nat) arg,
                ((EvDisplaySwitch "/extend" :: cmds ++ post ++ scans) : list event) !! j
                  = Some (EvDisplaySwitch arg) →
                j = 0 ∧ arg = "/extend").
      { intros [|j] arg H; [injection H as <-; auto|]. cbn in H.
        apply list_elem_of_lookup_2 in H.
        apply (display_switch_in_tail false) in H as [[=] _]; auto. }
      split; [reflexivity|].
      split; [intros i names enable H; apply (Hi _ _ _ H)|].
      split; [intros j arg H; apply (Hj _ _ H)|].
      intros i j names H2 H1. apply Hi in H1 as [H1 _]. apply Hj in H2 as [H2 _]. lia.
  - intros Hc. destruct (Hco Hc) as [Hok ->]. split; [exact Hok|].
    intros Hnd d name Hd Hname. unfold selected_calls. rewrite Hnd, Hd. cbn [default].
    assert (Hin : EvToggleMonitors [name] (negb (secondary_monitors_enabled s))
                  ∈ ddc_calls (negb (secondary_monitors_enabled s)) d).
    { unfold ddc_calls. apply list_elem_of_fmap. eauto. }
    apply list_elem_of_lookup. rewrite !elem_of_app. auto.
Qed.

(** C1 on the two desks: with the monitors off the calls are extend, enable,
    enable; with them on they are disable, disable, internal. *)
Lemma toggle_display_switch_brackets_ddc_calls_witness :
  emitted toggle_secondary_monitors (both_checked desk_off) !! 0%nat
    = Some (EvDisplaySwitch "/extend") ∧
  (∃ i : nat, emitted toggle_secondary_monitors (both_checked desk_off) !! i
        = Some (EvToggleMonitors ["Monitor2"] true)) ∧
  (∃ j : nat, emitted toggle_secondary_monitors (both_checked desk_on) !! j
        = Some (EvDisplaySwitch "/internal")) ∧
  (∃ i : nat, emitted toggle_secondary_monitors (both_checked desk_on) !! i
        = Some (EvToggleMonitors ["Monitor2"] false)).
Proof.
  pose proof (toggle_display_switch_brackets_ddc_calls (both_checked desk_off)) as [Hoff Hoff'].
  pose proof (toggle_display_switch_brackets_ddc_calls (both_checked desk_on)) as [Hon Hon'].
  destruct (Hoff' (coherent_both_checked desk_off (or_introl eq_refl))) as [_ Hcalls_off].
  destruct (Hon' (coherent_both_checked desk_on (or_intror eq_refl))) as [Hok Hcalls_on].
  split; [exact (proj1 Hoff)|]. split; [|split].
  - apply (Hcalls_off eq_refl [("Monitor1", true); ("Monitor2", true)] "Monitor2" eq_refl).
    right. left.
  - apply (proj2 (proj2 (proj2 Hon)) Hok).
  - apply (Hcalls_on eq_refl [("Monitor1", true); ("Monitor2", true)] "Monitor2" eq_refl).
    right. left.
Defined.

(** C2 at its failing input.  With DDC/CI in use, a toggle that returns
    ends in [create_monitor_checkboxes], which leaves every box unchecked, so
    the toggle after it makes no DDC/CI call, from whatever state.  On the
    desk with [Monitor1] checked and off: each of the two toggles negates the
    flag, and the display switch goes to "extend" and back to "internal",
    but [Monitor1], enabled by the first toggle, is left on by the second. *)
Theorem second_toggle_does_not_undo_the_first :
  let twice := toggle_secondary_monitors ;; toggle_secondary_monitors in
  (∀ s : St,
     no_ddcci s = false → (toggle_secondary_monitors s).1 = Ok tt →
     ∀ (i : nat) names enable,
       emitted toggle_secondary_monitors (toggle_secondary_monitors s).2 !! i
       ≠ Some (EvToggleMonitors names enable)) ∧
  (twice one_checked).1 = Ok tt ∧
  secondary_monitors_enabled one_checked = false ∧
  secondary_monitors_enabled (toggle_secondary_monitors one_checked).2 = true ∧
  secondary_monitors_enabled (twice one_checked).2 = false ∧
  checked_names <$> monitor_checkboxes one_checked = Some ["Monitor1"] ∧
  checked_names <$> monitor_checkboxes (toggle_secondary_monitors one_checked).2 = Some [] ∧
  emitted twice one_checked
    = [EvDisplaySwitch "/extend"; EvToggleMonitors ["Monitor1"] true;
       EvScan [primary; monitor1 "Yes"];
       EvDisplaySwitch "/internal";
       EvScan [primary; monitor1 "Yes"]] ∧
  mode (replay displays_off (emitted twice one_checked)) = mode displays_off ∧
  power displays_off !! "Monitor1" = Some false ∧
  power (replay displays_off (emitted twice one_checked)) !! "Monitor1" = Some true.
Proof.
  cbv zeta. split; [|repeat split; vm_compute; reflexivity].
  intros s Hnd Hok i names enable Hi.
  destruct (toggle_run s) as (cmds & _ & [E|[e E]] & _);
    rewrite E in Hok; [|discriminate].
  rewrite E in Hi. cbn [snd] in Hi.
  destruct (toggled_rebuilds cmds s Hnd) as (Hnd1 & Hboxes & Hcoh).
  set (s1 := toggled cmds s) in *.
  destruct (toggle_emitted s1) as (cmds1 & post & scans & Htr & _ & Hscans & Hpost & Hco).
  destruct (Hco Hcoh) as [_ ->].
  assert (Hnone : selected_calls s1 = []).
  { unfold selected_calls, ddc_calls. rewrite Hnd1, Hboxes. cbn [default]. unfold id.
    rewrite built_checkboxes_unchecked. reflexivity. }
  rewrite Htr, Hnone in Hi. cbn [app] in Hi.
  assert (Hin : EvToggleMonitors names enable
              ∈ (if secondary_monitors_enabled s1 then [] else [EvDisplaySwitch "/extend"])
                ++ post ++ scans)
    by (eapply list_elem_of_lookup_2, Hi).
  apply elem_of_app in Hin as [Hin|Hin].
  - destruct (secondary_monitors_enabled s1);
      first [ apply list_elem_of_singleton in Hin; discriminate | inversion Hin ].
  - assert (Hpost' : post = (if secondary_monitors_enabled s1
                             then [EvDisplaySwitch "/internal"] else []) ∨ post = [])
      by tauto.
    exact (not_ddc_call_in_tail _ post scans _ names enable Hpost' Hscans Hin eq_refl).
Qed.

(** C3, as the code has it.  Whenever [save_settings] writes the settings
    file, the names it writes are names the latest scan before that write
    returned with ["No"] in column 3: no run of the program, whatever the
    scans return and whatever the user clicks, makes a write that holds
    another name. *)
Theorem every_write_is_within_the_scan_of_its_time (nd : bool)
    (file : option file_content) (scan : nat → list Monitor) (dark : bool)
    (acts : list action) :
  writes_within_scan [] (log (session acts (fresh nd file scan dark)).2).
Proof. apply sound_session. Qed.

(** C3, as the claim has it, fails: the file is not rewritten by a rescan,
    so it still names [Monitor1] when the latest scan no longer has it. *)
Lemma file_can_name_a_monitor_the_latest_scan_lacks :
  let s := (session [ClickCheckbox "Monitor1"; ClickRescan] unplugged).2 in
  (session [ClickCheckbox "Monitor1"; ClickRescan] unplugged).1 = Ok tt ∧
  last_scan [] (log s) = [primary] ∧
  settings_file s = Some (Json_text (settings_doc ["Monitor1"])) ∧
  ¬ file_within (settings_file s) (last_scan [] (log s)).
Proof.
  cbv zeta.
  assert (Hscan : last_scan []
            (log (session [ClickCheckbox "Monitor1"; ClickRescan] unplugged).2) = [primary])
    by (vm_compute; reflexivity).
  assert (Hfile : settings_file (session [ClickCheckbox "Monitor1"; ClickRescan] unplugged).2
                  = Some (Json_text (settings_doc ["Monitor1"])))
    by (vm_compute; reflexivity).
  split; [vm_compute; reflexivity|]. split; [exact Hscan|]. split; [exact Hfile|].
  rewrite Hscan, Hfile. intros H.
  destruct (H (JStr "Monitor1")) as (name & _ & Hin); [left|].
  vm_compute in Hin. inversion Hin.
Qed.

(** C4 at its failing input.  The earlier run saved [Monitor1] and
    [Monitor2].  On the next start [load_settings] checks the box of
    [Monitor1]; that emits [stateChanged], [save_settings] overwrites
    [self.settings] and the file with [Monitor1] alone, and the loop then
    finds [Monitor2] missing from [self.settings]. *)
Theorem restart_restores_only_the_first_saved_box :
  checked_names <$> monitor_checkboxes (both_checked desk_off)
    = Some ["Monitor1"; "Monitor2"] ∧
  settings_file (both_checked desk_off)
    = Some (Json_text (settings_doc ["Monitor1"; "Monitor2"])) ∧
  keys <$> monitor_checkboxes (restarted desk_off) = Some ["Monitor1"; "Monitor2"] ∧
  checked_names <$> monitor_checkboxes (restarted desk_off) = Some ["Monitor1"] ∧
  settings (restarted desk_off) = settings_doc ["Monitor1"] ∧
  settings_file (restarted desk_off) = Some (Json_text (settings_doc ["Monitor1"])).
Proof. repeat split; vm_compute; reflexivity. Qed.

(** C5 at its failing inputs.  With a settings file that is not JSON,
    [json.load] raises inside [load_settings]; nothing catches it in
    [__init__] or in [__main__], so it leaves the program before the event
    loop is entered, and no call that would tell the user is made. *)
Theorem malformed_settings_end_the_program (nd : bool) (raw : string)
    (scan : nat → list Monitor) (dark : bool) :
  let start := fresh nd (Some (Malformed_text raw)) scan dark in
  load_settings (constructed nd (Some (Malformed_text raw)) scan dark)
    = (Raise JSONDecodeError, constructed nd (Some (Malformed_text raw)) scan dark) ∧
  QMS_init start
    = (Raise JSONDecodeError, constructed nd (Some (Malformed_text raw)) scan dark) ∧
  main start
    = (Raise JSONDecodeError, constructed nd (Some (Malformed_text raw)) scan dark) ∧
  ∀ acts, (session acts start).1 = Raise JSONDecodeError ∧
          Forall is_scan (log (session acts start).2).
Proof.
  cbv zeta.
  assert (Hload : load_settings (constructed nd (Some (Malformed_text raw)) scan dark)
    = (Raise JSONDecodeError, constructed nd (Some (Malformed_text raw)) scan dark)).
  { rewrite load_settings_unfold. destruct nd; reflexivity. }
  assert (Hinit : QMS_init (fresh nd (Some (Malformed_text raw)) scan dark)
    = (Raise JSONDecodeError, constructed nd (Some (Malformed_text raw)) scan dark)).
  { rewrite QMS_init_run. exact Hload. }
  assert (Hmain : main (fresh nd (Some (Malformed_text raw)) scan dark)
    = (Raise JSONDecodeError, constructed nd (Some (Malformed_text raw)) scan dark)).
  { unfold main. rewrite bind_run, Hinit. reflexivity. }
  split; [exact Hload|]. split; [exact Hinit|]. split; [exact Hmain|].
  intros acts. unfold session. rewrite bind_run, Hmain. cbn [fst snd].
  split; [reflexivity|].
  destruct nd; cbn [constructed log]; repeat constructor; eexists; reflexivity.
Qed.

(** C6, as the code has it.  Without a settings file [load_settings] sets
    [first_run] and raises nothing, [__main__] reaches the event loop, and
    the window is shown; it is with a settings file that a window which
    started stays hidden. *)
Theorem first_run_shows_the_window (nd : bool) (scan : nat → list Monitor) (dark : bool) :
  (main (fresh nd None scan dark)).1 = Ok tt ∧
  first_run (main (fresh nd None scan dark)).2 = true ∧
  visible (main (fresh nd None scan dark)).2 = true ∧
  settings_file (main (fresh nd None scan dark)).2 = None ∧
  ∀ f, (main (fresh nd (Some f) scan dark)).1 = Ok tt →
       first_run (main (fresh nd (Some f) scan dark)).2 = false ∧
       visible (main (fresh nd (Some f) scan dark)).2 = false.
Proof.
  assert (Hrun : main (fresh nd None scan dark)
            = (Ok tt, set_visible true (set_first_run true (constructed nd None scan dark)))).
  { unfold main. rewrite bind_run, QMS_init_run, load_settings_unfold.
    destruct nd; reflexivity. }
  rewrite Hrun. cbn [fst snd].
  split; [reflexivity|]. split; [reflexivity|]. split; [reflexivity|].
  split; [destruct nd; reflexivity|].
  intros f. unfold main. rewrite bind_run, QMS_init_run.
  pose proof (load_settings_frame (constructed nd (Some f) scan dark)) as Hframe.
  cbv zeta in Hframe. destruct Hframe as (_ & _ & _ & Hvis & Hfr).
  destruct (load_settings (constructed nd (Some f) scan dark)) as [[[]|e] s'];
    cbn [fst snd] in *; [|discriminate].
  intros _. unfold get, when. run.
  replace (first_run s') with false by (rewrite Hfr; destruct nd; reflexivity).
  cbn [snd]. split; [rewrite Hfr | rewrite Hvis]; destruct nd; reflexivity.
Qed.

(** C6, as the claim has it, fails on a first run: the window is shown. *)
Lemma first_run_window_is_not_hidden :
  settings_file desk_off = None ∧
  ¬ ((main desk_off).1 = Ok tt ∧
     first_run (main desk_off).2 = true ∧
     visible (main desk_off).2 = false).
Proof.
  split; [reflexivity|]. intros (_ & _ & H).
  vm_compute in H. discriminate H.
Qed.



(** C8 at its failing input.  Both boxes are checked and saved; the user
    clicks Rescan and the scan returns the same monitors.  The grid is
    cleared and rebuilt from the scan, every new box is unchecked, and
    nothing reads the stored selection back: it stays in [self.settings]
    and in the file, while no box shows it.  The same from every state: a
    rescan leaves one unchecked box per eligible name of the new scan, and
    [self.settings] and the file as they were. *)
Theorem rescan_leaves_every_box_unchecked :
  (let before := both_checked desk_off in
   let after := (handle ClickRescan before).2 in
   (handle ClickRescan before).1 = Ok tt ∧
   checked_names <$> monitor_checkboxes before = Some ["Monitor1"; "Monitor2"] ∧
   monitors after = monitors before ∧
   gridLayout_2 after = built_widgets (monitors before) ∧
   keys <$> monitor_checkboxes after = Some ["Monitor1"; "Monitor2"] ∧
   checked_names <$> monitor_checkboxes after = Some [] ∧
   settings after = settings_doc ["Monitor1"; "Monitor2"] ∧
   settings_file after = Some (Json_text (settings_doc ["Monitor1"; "Monitor2"]))) ∧
  ∀ s : St,
    let after := (handle ClickRescan s).2 in
    (handle ClickRescan s).1 = Ok tt ∧
    monitors after = env_scan s (scans_done s) ∧
    gridLayout_2 after = built_widgets (monitors after) ∧
    (∃ d, monitor_checkboxes after = Some d ∧
          (∀ k, k ∈ keys d ↔ k ∈ eligible_names (monitors after)) ∧
          checked_names d = []) ∧
    settings after = settings s ∧
    settings_file after = settings_file s.
Proof.
  split; [cbv zeta; repeat split; vm_compute; reflexivity|].
  intros s. cbv zeta. cbn [handle]. rewrite create_monitor_checkboxes_run.
  cbn [fst snd rescanned monitors gridLayout_2 monitor_checkboxes settings settings_file].
  repeat split.
  exists (built_checkboxes (env_scan s (scans_done s))).
  split; [reflexivity|]. split; [apply built_checkboxes_keys|].
  apply built_checkboxes_unchecked.
Qed.

(** A change of a box that the dict holds is saved at once.  When
    [setChecked] changes the box of [monitor] (a click does exactly that),
    the method returns with the settings file holding the selection as it
    is after the change, written by that very call; so checking
    ["Monitor1"] while no box is checked leaves
    [{"secondary_monitors": ["Monitor1"]}] on disk. *)
Lemma dict_box_change_is_saved_at_once (s : St) (d : list (string * bool))
    (monitor : string) (cur : bool) :
  monitor_checkboxes s = Some d →
  dict_get monitor d = Some cur →
  let d' := dict_set monitor (negb cur) d in
  let s' := (checkbox_setChecked monitor (negb cur) s).2 in
  click_checkbox monitor s = checkbox_setChecked monitor (negb cur) s ∧
  (checkbox_setChecked monitor (negb cur) s).1 = Ok tt ∧
  monitor_checkboxes s' = Some d' ∧
  dict_get monitor d' = Some (negb cur) ∧
  emitted (checkbox_setChecked monitor (negb cur)) s
    = [EvWrite (settings_doc (checked_names d'))] ∧
  settings_file s' = Some (Json_text (settings_doc (checked_names d'))) ∧
  (monitor = "Monitor1" → checked_names d = [] →
   settings_file s'
   = Some (Json_text (JObj [("secondary_monitors", JArr [JStr "Monitor1"])]))).
Proof.
  intros Hd Hk d' s'. subst s'. unfold emitted.
  rewrite (click_checkbox_run s d monitor cur Hd Hk).
  rewrite (checkbox_setChecked_run s d monitor cur (negb cur) Hd Hk).
  replace (Bool.eqb cur (negb cur)) with false by (destruct cur; reflexivity).
  cbn [fst snd]. fold d'.
  split; [reflexivity|]. split; [reflexivity|]. split; [reflexivity|].
  split; [apply dict_get_dict_set|].
  split; [apply (emitted_saved d' (set_monitor_checkboxes (Some d') s))|].
  split; [reflexivity|].
  intros -> Hnone. cbn [saved settings_file]. subst d'.
  destruct cur.
  - exfalso. clear Hd. induction d as [|[k c] d IH]; [discriminate|].
    rewrite checked_names_cons in Hnone. cbn [dict_get] in Hk.
    destruct c; [discriminate|].
    destruct (String.eqb k "Monitor1"); [discriminate | auto].
  - cbn [negb]. rewrite checked_names_dict_set_true by eauto. reflexivity.
Qed.

(** C9. A change of a checkbox is written at once, but the change of an
    older box is not in what is written.  Two monitors report the name
    ["Monitor1"]: the grid shows two boxes of that name, all connected to
    [save_settings] (line 68), and the dict holds the newer one only
    (line 75).  With no box checked the user checks the older one: the file
    is written by that very click and holds [{"secondary_monitors": []}],
    where the same click on the newer box leaves
    [{"secondary_monitors": ["Monitor1"]}].  In every state a box the dict
    holds is saved with its change, and an older box makes
    [save_settings] write the selection of the dict as it was. *)
Theorem change_of_an_older_box_is_not_saved :
  let s := (main desk_twins).2 in
  let older := handle (ClickOlderCheckbox "Monitor1") in
  let newer := handle (ClickCheckbox "Monitor1") in
  ((main desk_twins).1 = Ok tt ∧
   gridLayout_2 s = [QLabel "Monitor1"; QCheckBox "Monitor1";
                     QLabel "Monitor1"; QCheckBox "Monitor1"] ∧
   monitor_checkboxes s = Some [("Monitor1", false)] ∧
   settings_file s = None) ∧
  ((older s).1 = Ok tt ∧
   emitted older s = [EvWrite (JObj [("secondary_monitors", JArr [])])] ∧
   settings_file (older s).2
   = Some (Json_text (JObj [("secondary_monitors", JArr [])])) ∧
   monitor_checkboxes (older s).2 = Some [("Monitor1", false)]) ∧
  ((newer s).1 = Ok tt ∧
   settings_file (newer s).2
   = Some (Json_text (JObj [("secondary_monitors", JArr [JStr "Monitor1"])])) ∧
   monitor_checkboxes (newer s).2 = Some [("Monitor1", true)]) ∧
  ∀ (s0 : St) (d : list (string * bool)) (monitor : string),
    monitor_checkboxes s0 = Some d →
    (∀ cur, dict_get monitor d = Some cur →
       let d' := dict_set monitor (negb cur) d in
       handle (ClickCheckbox monitor) s0
       = (Ok tt, saved d' (set_monitor_checkboxes (Some d') s0)) ∧
       dict_get monitor d' = Some (negb cur) ∧
       emitted (handle (ClickCheckbox monitor)) s0
       = [EvWrite (settings_doc (checked_names d'))] ∧
       settings_file (handle (ClickCheckbox monitor) s0).2
       = Some (Json_text (settings_doc (checked_names d')))) ∧
    ((1 < length (filter (λ w, is_box_of monitor w = true) (gridLayout_2 s0)))%nat →
       handle (ClickOlderCheckbox monitor) s0 = (Ok tt, saved d s0) ∧
       emitted (handle (ClickOlderCheckbox monitor)) s0
       = [EvWrite (settings_doc (checked_names d))] ∧
       settings_file (handle (ClickOlderCheckbox monitor) s0).2
       = Some (Json_text (settings_doc (checked_names d))) ∧
       monitor_checkboxes (handle (ClickOlderCheckbox monitor) s0).2 = Some d).
Proof.
  cbv zeta.
  split; [repeat split; vm_compute; reflexivity|].
  split; [repeat split; vm_compute; reflexivity|].
  split; [repeat split; vm_compute; reflexivity|].
  intros s0 d monitor Hd. split.
  - intros cur Hk. cbn [handle].
    destruct (dict_box_change_is_saved_at_once s0 d monitor cur Hd Hk)
      as (Hclick & _ & _ & Hget & Hlog & _).
    unfold emitted in *. rewrite Hclick in *.
    rewrite (checkbox_setChecked_run s0 d monitor cur (negb cur) Hd Hk) in *.
    replace (Bool.eqb cur (negb cur)) with false in * by (destruct cur; reflexivity).
    repeat split; assumption.
  - intros Hold. cbn [handle]. unfold emitted.
    rewrite (click_older_checkbox_run s0 d monitor Hd Hold). cbn [snd].
    split; [reflexivity|]. split; [apply emitted_saved|].
    split; [reflexivity | exact Hd].
Qed.

(** C10. [save_settings] replaces the whole document.  Whatever the file
    held before, after a change of a checkbox (the box the dict holds for a
    name, or an older box of the name) it holds an object whose only key is
    [secondary_monitors]: every other key is gone. *)
Theorem save_settings_replaces_the_document (s : St) (d : list (string * bool))
    (a : action) :
  monitor_checkboxes s = Some d →
  changes_a_checkbox a s = true →
  (handle a s).1 = Ok tt ∧
  (∃ names,
     settings_file (handle a s).2
     = Some (Json_text (JObj [("secondary_monitors", JArr (JStr <$> names))]))) ∧
  settings_file (save_settings s).2
  = Some (Json_text (JObj [("secondary_monitors", JArr (JStr <$> checked_names d))])) ∧
  ∀ doc key, settings_file (handle a s).2 = Some (Json_text doc) →
             key ≠ "secondary_monitors" → json_member key doc = None.
Proof.
  intros Hd Ha.
  assert (Hrun : ∃ d0 s0, handle a s = (Ok tt, saved d0 s0)).
  { destruct a; cbn [changes_a_checkbox] in Ha; try discriminate; cbn [handle].
    - rewrite Hd in Ha. apply bool_decide_eq_true in Ha as [cur Hk].
      rewrite (click_checkbox_run s d monitor cur Hd Hk). eauto.
    - apply Nat.ltb_lt in Ha.
      rewrite (click_older_checkbox_run s d monitor Hd Ha). eauto. }
  destruct Hrun as (d0 & s0 & ->).
  rewrite (save_settings_run s d Hd). cbn [fst snd saved settings_file].
  split; [reflexivity|]. split; [exists (checked_names d0); reflexivity|].
  split; [reflexivity|].
  intros doc key [= <-] Hkey. cbn [json_member settings_doc dict_get].
  destruct (String.eqb_spec "secondary_monitors" key); [congruence | reflexivity].
Qed.

Lemma save_settings_replaces_the_document_witness :
  (json_member "theme" (settings (main desk_with_theme).2) = Some (JStr "dark") ∧
   settings_file (main desk_with_theme).2 = settings_file desk_with_theme ∧
   ∀ doc, settings_file (click_checkbox "Monitor2" (main desk_with_theme).2).2
          = Some (Json_text doc) →
          json_member "theme" doc = None) ∧
  (json_member "theme" (settings (main desk_twins_with_theme).2) = Some (JStr "dark") ∧
   settings_file (main desk_twins_with_theme).2 = settings_file desk_twins_with_theme ∧
   ∀ doc, settings_file
            (handle (ClickOlderCheckbox "Monitor1") (main desk_twins_with_theme).2).2
          = Some (Json_text doc) →
          json_member "theme" doc = None).
Proof.
  split.
  - split; [vm_compute; reflexivity|]. split; [vm_compute; reflexivity|].
    destruct (save_settings_replaces_the_document (main desk_with_theme).2
                [("Monitor1", false); ("Monitor2", false)] (ClickCheckbox "Monitor2"))
      as (_ & _ & _ & Hgone); [vm_compute; reflexivity | vm_compute; reflexivity |].
    intros doc Hdoc. apply (Hgone doc "theme" Hdoc). discriminate.
  - split; [vm_compute; reflexivity|]. split; [vm_compute; reflexivity|].
    destruct (save_settings_replaces_the_document (main desk_twins_with_theme).2
                [("Monitor1", false)] (ClickOlderCheckbox "Monitor1"))
      as (_ & _ & _ & Hgone); [vm_compute; reflexivity | vm_compute; reflexivity |].
    intros doc Hdoc. apply (Hgone doc "theme" Hdoc). discriminate.
Defined.

(** ** Further properties of the code *)

(** *** Loading into unchecked boxes *)

Lemma load_loop_rounds :
  load_loop
  = except_AttributeError_pass
      (d ← self_monitor_checkboxes; for_each (keys d) load_round).
Proof. reflexivity. Qed.

Lemma py_in_container (monitor : string) (container : json) (f : string → bool) (s : St) :
  container_has container = Some f → py_in monitor container s = (Ok (f monitor), s).
Proof. destruct container; intros [= <-]; reflexivity. Qed.

Lemma dict_get_dict_set_ne {V} (k k0 : string) (v : V) (d : list (string * V)) :
  k0 ≠ k → dict_get k0 (dict_set k v d) = dict_get k0 d.
Proof.
  intros Hne. induction d as [|[k' v'] d IH]; cbn [dict_get dict_set].
  - destruct (String.eqb_spec k k0); [congruence | reflexivity].
  - destruct (String.eqb_spec k' k) as [->|Hk]; cbn [dict_get].
    + destruct (String.eqb_spec k k0); [congruence | reflexivity].
    + rewrite IH. reflexivity.
Qed.

Lemma unchecked_box (d : list (string * bool)) (k : string) :
  NoDup (keys d) → checked_names d = [] → k ∈ keys d → dict_get k d = Some false.
Proof.
  intros Hnd Hnone Hk. apply dict_get_is_Some in Hk as [c Hc].
  rewrite Hc, (dict_get_checked d k c Hnd Hc), Hnone. reflexivity.
Qed.

Lemma load_round_run (monitor : string) (s : St) (fields : list (string * json))
    (f : string → bool) (d : list (string * bool)) (cur : bool) :
  settings s = JObj fields →
  container_has (stored_selection fields) = Some f →
  monitor_checkboxes s = Some d →
  dict_get monitor d = Some cur →
  load_round monitor s
  = (Ok tt,
     if Bool.eqb cur (f monitor) then s
     else saved (dict_set monitor (f monitor) d)
            (set_monitor_checkboxes (Some (dict_set monitor (f monitor) d)) s)).
Proof.
  intros Hset Hf Hd Hk. unfold load_round.
  rewrite bind_run. unfold get at 1. cbv beta iota. rewrite Hset.
  rewrite bind_run. cbn [py_get]. unfold mret at 1, M_ret at 1. cbv beta iota.
  fold (stored_selection fields).
  rewrite bind_run, (py_in_container monitor _ f s Hf). cbv beta iota.
  apply checkbox_setChecked_run; assumption.
Qed.

(** After the first box is checked the rounds that follow change nothing:
    [self.settings] then lists that one name only. *)
Lemma load_rounds_after_first (l : list string) (k : string) (d : list (string * bool))
    (s : St) :
  NoDup (keys d) → checked_names d = [] → k ∈ keys d →
  k ∉ l → (∀ x, x ∈ l → x ∈ keys d) →
  for_each l load_round (box_restored k d s) = (Ok tt, box_restored k d s).
Proof.
  intros Hnd Hnone Hk Hkl Hl. apply for_each_unchanged. intros x Hx.
  assert (Hne : x ≠ k) by (intros ->; contradiction).
  assert (Hone : checked_names (dict_set k true d) = [k])
    by (apply checked_names_dict_set_true; [apply dict_get_is_Some; exact Hk | exact Hnone]).
  assert (Hset : settings (box_restored k d s)
                 = JObj [("secondary_monitors", JArr [JStr k])]).
  { unfold box_restored. cbn [saved settings]. rewrite Hone. reflexivity. }
  assert (Hbox : dict_get x (dict_set k true d) = Some false).
  { rewrite dict_get_dict_set_ne by exact Hne. apply unchecked_box; auto. }
  rewrite (load_round_run x (box_restored k d s) _
             (λ m, existsb (is_JStr m) [JStr k]) (dict_set k true d) false
             Hset eq_refl eq_refl Hbox).
  cbn [existsb is_JStr]. destruct (String.eqb_spec k x); [congruence | reflexivity].
Qed.

Lemma load_rounds_unchecked (l : list string) : ∀ (s : St) (fields : list (string * json))
    (f : string → bool) (d : list (string * bool)),
  settings s = JObj fields →
  container_has (stored_selection fields) = Some f →
  monitor_checkboxes s = Some d →
  NoDup (keys d) → checked_names d = [] →
  NoDup l → (∀ x, x ∈ l → x ∈ keys d) →
  for_each l load_round s
  = (Ok tt, match find f l with Some k => box_restored k d s | None => s end).
Proof.
  induction l as [|k l IH]; intros s fields f d Hset Hf Hd Hnd Hnone Hl Hin; [reflexivity|].
  apply NoDup_cons in Hl as [Hk Hl].
  cbn [for_each find]. rewrite bind_run.
  rewrite (load_round_run k s fields f d false Hset Hf Hd).
  2:{ apply unchecked_box; auto. apply Hin. left. }
  destruct (f k); cbn [Bool.eqb].
  - apply load_rounds_after_first; auto.
    + apply Hin. left.
    + intros x Hx. apply Hin. right. exact Hx.
  - apply (IH s fields f d); auto. intros x Hx. apply Hin. right. exact Hx.
Qed.

(** Loading a settings object into unchecked boxes checks at most one box:
    the first one, in dict order, that the stored value contains. *)
Lemma load_settings_unchecked (s : St) (fields : list (string * json))
    (f : string → bool) (d : list (string * bool)) :
  settings_file s = Some (Json_text (JObj fields)) →
  container_has (stored_selection fields) = Some f →
  monitor_checkboxes s = Some d →
  NoDup (keys d) → checked_names d = [] →
  load_settings s
  = (Ok tt,
     match find f (keys d) with
     | Some k => box_restored k d (set_settings (JObj fields) s)
     | None => set_settings (JObj fields) s
     end).
Proof.
  intros Hfile Hf Hd Hnd Hnone. rewrite load_settings_unfold, Hfile, load_loop_rounds.
  unfold except_AttributeError_pass, self_monitor_checkboxes.
  rewrite bind_run. unfold get at 1, or_raise at 1, mbind at 1, M_bind at 1.
  cbn [monitor_checkboxes set_settings]. rewrite Hd. unfold mret at 1, M_ret at 1.
  cbv beta iota.
  rewrite (load_rounds_unchecked (keys d) (set_settings (JObj fields) s) fields f d
             eq_refl Hf Hd Hnd Hnone Hnd (λ x Hx, Hx)).
  destruct (find f (keys d)); reflexivity.
Qed.

Lemma main_run_with_file (nd : bool) (text : file_content) (scan : nat → list Monitor)
    (dark : bool) (s' : St) :
  load_settings (constructed nd (Some text) scan dark) = (Ok tt, s') →
  main (fresh nd (Some text) scan dark) = (Ok tt, s').
Proof.
  intros Hload. unfold main. rewrite bind_run, QMS_init_run, Hload.
  pose proof (load_settings_frame (constructed nd (Some text) scan dark)) as Hframe.
  cbv zeta in Hframe. rewrite Hload in Hframe. cbn [snd] in Hframe.
  destruct Hframe as (_ & _ & _ & _ & Hfr).
  unfold get, when. run. rewrite Hfr. destruct nd; reflexivity.
Qed.

(** Start-up with DDC/CI on a settings object whose stored value is a
    container. *)
Lemma startup_on_object (fields : list (string * json)) (f : string → bool)
    (scan : nat → list Monitor) (dark : bool) :
  container_has (stored_selection fields) = Some f →
  main (start_on (JObj fields) scan dark)
  = (Ok tt,
     let built := set_settings (JObj fields)
                    (constructed false (Some (Json_text (JObj fields))) scan dark) in
     match find f (keys (built_checkboxes (scan 1))) with
     | Some k => box_restored k (built_checkboxes (scan 1)) built
     | None => built
     end).
Proof.
  intros Hf. apply main_run_with_file.
  apply load_settings_unchecked; auto.
  - apply built_checkboxes_NoDup.
  - apply built_checkboxes_unchecked.
Qed.

Lemma find_ext {A} (f g : A → bool) (l : list A) :
  (∀ x, f x = g x) → find f l = find g l.
Proof.
  intros H. induction l as [|x l IH]; [reflexivity|].
  cbn [find]. rewrite H, IH. reflexivity.
Qed.

Lemma first_saved_find (names : list string) (d : list (string * bool)) :
  find (λ m, existsb (is_JStr m) (JStr <$> names)) (keys d) = first_saved names d.
Proof. apply find_ext. intros x. apply existsb_is_JStr. Qed.

Lemma find_elem_of {A} (f : A → bool) (l : list A) (x : A) :
  find f l = Some x → x ∈ l ∧ f x = true.
Proof.
  induction l as [|y l IH]; cbn [find]; [discriminate|].
  destruct (f y) eqn:E.
  - intros [= <-]. split; [left | exact E].
  - intros H. destruct (IH H). split; [right|]; assumption.
Qed.

Lemma find_is_Some {A} (f : A → bool) (l : list A) (x : A) :
  x ∈ l → f x = true → is_Some (find f l).
Proof.
  induction l as [|y l IH]; intros Hx Hf; [inversion Hx|].
  cbn [find]. destruct (f y) eqn:E; [eauto|].
  apply elem_of_cons in Hx as [->|Hx]; [congruence | auto].
Qed.

(** What the window holds once the box of [k] is restored. *)
Lemma box_restored_fields (k : string) (d : list (string * bool)) (s : St) :
  NoDup (keys d) → checked_names d = [] → k ∈ keys d →
  keys <$> monitor_checkboxes (box_restored k d s) = Some (keys d) ∧
  checked_names <$> monitor_checkboxes (box_restored k d s) = Some [k] ∧
  settings (box_restored k d s) = settings_doc [k] ∧
  settings_file (box_restored k d s) = Some (Json_text (settings_doc [k])) ∧
  log (box_restored k d s) = log s ++ [EvWrite (settings_doc [k])].
Proof.
  intros Hnd Hnone Hk. apply dict_get_is_Some in Hk.
  unfold box_restored. cbn [saved monitor_checkboxes settings settings_file log
                            set_monitor_checkboxes fmap option_fmap option_map].
  rewrite keys_dict_set_present, checked_names_dict_set_true by assumption.
  repeat split.
Qed.

(** X1.  Start-up with DDC/CI on a file that [save_settings] wrote: the
    window comes up, with one box per name the scan offers; of the saved
    names at most one is restored, the first box in dict order whose name
    was saved, and then the file is rewritten to list that name alone.
    When no box has a saved name, no box is checked and the file stays as
    it was. *)
Theorem startup_restores_the_first_saved_box_only (names : list string)
    (scan : nat → list Monitor) (dark : bool) :
  let start := start_on (settings_doc names) scan dark in
  let boxes := built_checkboxes (scan 1) in
  (main start).1 = Ok tt ∧
  visible (main start).2 = false ∧
  keys <$> monitor_checkboxes (main start).2 = Some (keys boxes) ∧
  match first_saved names boxes with
  | Some k =>
      k ∈ names ∧ k ∈ eligible_names (scan 1) ∧
      checked_names <$> monitor_checkboxes (main start).2 = Some [k] ∧
      settings_file (main start).2 = Some (Json_text (settings_doc [k])) ∧
      log (main start).2 = [EvScan (scan 0); EvScan (scan 1); EvWrite (settings_doc [k])]
  | None =>
      (∀ k, k ∈ names → k ∉ eligible_names (scan 1)) ∧
      checked_names <$> monitor_checkboxes (main start).2 = Some [] ∧
      settings_file (main start).2 = Some (Json_text (settings_doc names)) ∧
      log (main start).2 = [EvScan (scan 0); EvScan (scan 1)]
  end.
Proof.
  cbv zeta.
  change (start_on (settings_doc names) scan dark)
    with (start_on (JObj [("secondary_monitors", JArr (JStr <$> names))]) scan dark).
  rewrite (startup_on_object [("secondary_monitors", JArr (JStr <$> names))]
             (λ m, existsb (is_JStr m) (JStr <$> names)) scan dark eq_refl).
  cbv zeta. rewrite first_saved_find. cbn [fst snd].
  destruct (first_saved names (built_checkboxes (scan 1))) as [k|] eqn:Hfirst.
  - apply find_elem_of in Hfirst as [Hk Hin]. apply bool_decide_eq_true in Hin.
    destruct (box_restored_fields k (built_checkboxes (scan 1))
                (set_settings (JObj [("secondary_monitors", JArr (JStr <$> names))])
                   (constructed false
                      (Some (Json_text (JObj [("secondary_monitors", JArr (JStr <$> names))])))
                      scan dark))
                (built_checkboxes_NoDup _) (built_checkboxes_unchecked _) Hk)
      as (Hkeys & Hchecked & _ & Hfile & Hlog).
    split; [reflexivity|]. split; [reflexivity|]. split; [exact Hkeys|].
    split; [exact Hin|]. split; [apply built_checkboxes_keys, Hk|].
    split; [exact Hchecked|]. split; [exact Hfile|]. exact Hlog.
  - split; [reflexivity|]. split; [reflexivity|]. split; [reflexivity|].
    split.
    + intros k Hk Hel. apply built_checkboxes_keys in Hel.
      destruct (find_is_Some (λ m, bool_decide (m ∈ names)) _ k Hel) as [x Hx].
      * apply bool_decide_eq_true. exact Hk.
      * unfold first_saved in Hfirst. congruence.
    + cbn [set_settings constructed monitor_checkboxes settings_file log
           fmap option_fmap option_map].
      rewrite built_checkboxes_unchecked. repeat split.
Qed.

(** X2.  A saved selection of one monitor survives a restart: when the
    scan at start-up offers a box for the saved name, that box and no other
    comes up checked, and the file lists the name as before. *)
Theorem one_saved_box_survives_a_restart (k : string)
    (scan : nat → list Monitor) (dark : bool) :
  k ∈ eligible_names (scan 1) →
  let start := start_on (settings_doc [k]) scan dark in
  (main start).1 = Ok tt ∧
  checked_names <$> monitor_checkboxes (main start).2 = Some [k] ∧
  settings (main start).2 = settings_doc [k] ∧
  settings_file (main start).2 = Some (Json_text (settings_doc [k])).
Proof.
  intros Hk. cbv zeta. apply built_checkboxes_keys in Hk.
  change (start_on (settings_doc [k]) scan dark)
    with (start_on (JObj [("secondary_monitors", JArr (JStr <$> [k]))]) scan dark).
  rewrite (startup_on_object [("secondary_monitors", JArr (JStr <$> [k]))]
             (λ m, existsb (is_JStr m) (JStr <$> [k])) scan dark eq_refl).
  cbv zeta. rewrite first_saved_find. unfold first_saved.
  destruct (find_is_Some (λ m, bool_decide (m ∈ [k])) _ k Hk) as [x Hx];
    [apply bool_decide_eq_true; left|].
  rewrite Hx. apply find_elem_of in Hx as [_ Hx]. apply bool_decide_eq_true in Hx.
  apply list_elem_of_singleton in Hx as ->. cbn [fst snd].
  destruct (box_restored_fields k (built_checkboxes (scan 1))
              (set_settings (JObj [("secondary_monitors", JArr (JStr <$> [k]))])
                 (constructed false
                    (Some (Json_text (JObj [("secondary_monitors", JArr (JStr <$> [k]))])))
                    scan dark))
              (built_checkboxes_NoDup _) (built_checkboxes_unchecked _) Hk)
    as (_ & Hchecked & Hset & Hfile & _).
  auto.
Qed.

Lemma one_saved_box_survives_a_restart_witness :
  checked_names <$> monitor_checkboxes (main (desk_on_file (settings_doc ["Monitor2"]))).2
  = Some ["Monitor2"].
Proof.
  refine (proj1 (proj2 (one_saved_box_survives_a_restart "Monitor2"
            (λ _, [primary; monitor1 "No"; monitor2 "No"]) false _))).
  vm_compute. right. left.
Defined.

(** X3.  A settings object without the key [secondary_monitors] selects
    nothing: [get] falls back to the empty list, the window comes up with
    every box unchecked, the other keys stay in [self.settings], and the
    file is not written. *)
Theorem settings_without_the_key_select_nothing (fields : list (string * json))
    (scan : nat → list Monitor) (dark : bool) :
  dict_get "secondary_monitors" fields = None →
  let start := start_on (JObj fields) scan dark in
  (main start).1 = Ok tt ∧
  keys <$> monitor_checkboxes (main start).2 = Some (keys (built_checkboxes (scan 1))) ∧
  checked_names <$> monitor_checkboxes (main start).2 = Some [] ∧
  settings (main start).2 = JObj fields ∧
  settings_file (main start).2 = Some (Json_text (JObj fields)) ∧
  log (main start).2 = [EvScan (scan 0); EvScan (scan 1)].
Proof.
  intros Hkey. cbv zeta.
  rewrite (startup_on_object fields (λ m, existsb (is_JStr m) []) scan dark).
  2:{ unfold stored_selection. rewrite Hkey. reflexivity. }
  cbv zeta. cbn [existsb].
  assert (Hnone : ∀ l : list string, find (λ _, false) l = None)
    by (induction l; auto).
  rewrite Hnone. cbn [fst snd set_settings constructed monitor_checkboxes settings
                      settings_file log fmap option_fmap option_map].
  rewrite built_checkboxes_unchecked. repeat split.
Qed.

Lemma settings_without_the_key_select_nothing_witness :
  checked_names <$> monitor_checkboxes (main (desk_on_file (JObj [("theme", JStr "dark")]))).2
  = Some [] ∧
  settings_file (main (desk_on_file (JObj [("theme", JStr "dark")]))).2
  = Some (Json_text (JObj [("theme", JStr "dark")])).
Proof.
  destruct (settings_without_the_key_select_nothing [("theme", JStr "dark")]
              (λ _, [primary; monitor1 "No"; monitor2 "No"]) false eq_refl)
    as (_ & _ & Hchecked & _ & Hfile & _).
  split; [exact Hchecked | exact Hfile].
Defined.

(** X4.  A string under [secondary_monitors] is searched, not compared:
    [monitor in "..."] is the substring test, so the first box whose name
    occurs in the string comes up checked, and the file is rewritten with
    the list of that one name. *)
Theorem string_selection_is_matched_by_substring (text k : string)
    (scan : nat → list Monitor) (dark : bool) :
  find (λ m, is_substring m text) (keys (built_checkboxes (scan 1))) = Some k →
  let start := start_on (JObj [("secondary_monitors", JStr text)]) scan dark in
  (main start).1 = Ok tt ∧
  is_substring k text = true ∧
  checked_names <$> monitor_checkboxes (main start).2 = Some [k] ∧
  settings_file (main start).2 = Some (Json_text (settings_doc [k])).
Proof.
  intros Hfind. cbv zeta.
  rewrite (startup_on_object [("secondary_monitors", JStr text)]
             (λ m, is_substring m text) scan dark eq_refl).
  cbv zeta. rewrite Hfind. apply find_elem_of in Hfind as [Hk Hsub]. cbn [fst snd].
  destruct (box_restored_fields k (built_checkboxes (scan 1))
              (set_settings (JObj [("secondary_monitors", JStr text)])
                 (constructed false
                    (Some (Json_text (JObj [("secondary_monitors", JStr text)])))
                    scan dark))
              (built_checkboxes_NoDup _) (built_checkboxes_unchecked _) Hk)
    as (_ & Hchecked & _ & Hfile & _).
  auto.
Qed.

Lemma string_selection_is_matched_by_substring_witness :
  checked_names <$> monitor_checkboxes
    (main (desk_on_file (JObj [("secondary_monitors", JStr "Monitor10")]))).2
  = Some ["Monitor1"].
Proof.
  refine (proj1 (proj2 (proj2 (string_selection_is_matched_by_substring
            "Monitor10" "Monitor1" (λ _, [primary; monitor1 "No"; monitor2 "No"]) false _)))).
  vm_compute. reflexivity.
Defined.

(** *** Settings that are not what [save_settings] writes *)

Lemma py_get_not_object (doc : json) (s : St) :
  (∀ fields, doc ≠ JObj fields) →
  py_get doc "secondary_monitors" s = (Raise AttributeError, s).
Proof. intros H. destruct doc; try reflexivity. destruct (H fields eq_refl). Qed.

Lemma py_in_not_container (monitor : string) (container : json) (s : St) :
  container_has container = None → py_in monitor container s = (Raise TypeError, s).
Proof. destruct container; intros [=]; reflexivity. Qed.

(** The loop of [load_settings] when looking up the stored selection, or
    testing the first name against it, raises [e]. *)
Lemma load_loop_first_round_raises (s : St) (e : exn) :
  (∀ item d, monitor_checkboxes s = Some (item :: d) →
             load_round (fst item) s = (Raise e, s)) →
  load_loop s
  = match monitor_checkboxes s with
    | Some (_ :: _) =>
        match e with AttributeError => (Ok tt, s) | _ => (Raise e, s) end
    | _ => (Ok tt, s)
    end.
Proof.
  intros Hround. rewrite load_loop_rounds.
  unfold except_AttributeError_pass, self_monitor_checkboxes.
  rewrite bind_run. unfold get at 1, or_raise at 1, mbind at 1, M_bind at 1.
  destruct (monitor_checkboxes s) as [[|item d]|] eqn:Hd; try reflexivity.
  unfold mret at 1, M_ret at 1. cbv beta iota.
  unfold keys. rewrite fmap_cons. cbn [for_each]. rewrite bind_run.
  rewrite (Hround item d eq_refl).
  destruct e; reflexivity.
Qed.

Lemma load_settings_not_object (s : St) (doc : json) :
  settings_file s = Some (Json_text doc) →
  (∀ fields, doc ≠ JObj fields) →
  load_settings s = (Ok tt, set_settings doc s).
Proof.
  intros H0 Hdoc. rewrite load_settings_unfold, H0.
  rewrite (load_loop_first_round_raises _ AttributeError).
  - destruct (monitor_checkboxes (set_settings doc s)) as [[|? ?]|]; reflexivity.
  - intros item d _. unfold load_round. rewrite bind_run. unfold get at 1.
    cbv beta iota. cbn [settings set_settings].
    rewrite bind_run, py_get_not_object by exact Hdoc. reflexivity.
Qed.

Lemma load_settings_not_iterable (s : St) (fields : list (string * json)) (v : json) :
  dict_get "secondary_monitors" fields = Some v →
  container_has v = None →
  settings_file s = Some (Json_text (JObj fields)) →
  load_settings s
  = match monitor_checkboxes s with
    | Some (_ :: _) => (Raise TypeError, set_settings (JObj fields) s)
    | _ => (Ok tt, set_settings (JObj fields) s)
    end.
Proof.
  intros Hkey Hv H0. rewrite load_settings_unfold, H0.
  rewrite (load_loop_first_round_raises _ TypeError).
  - destruct (monitor_checkboxes (set_settings (JObj fields) s)) as [[|? ?]|] eqn:E;
      cbn [monitor_checkboxes set_settings] in E; rewrite E; reflexivity.
  - intros item d _. unfold load_round. rewrite bind_run. unfold get at 1.
    cbv beta iota. cbn [settings set_settings]. rewrite bind_run. cbn [py_get].
    rewrite Hkey. cbn [default].
    unfold id, mret at 1, M_ret at 1. cbv beta iota.
    rewrite bind_run, py_in_not_container by exact Hv. reflexivity.
Qed.

(** X5.  A settings file that decodes to something other than an object
    (a list, a string, a number, [null]) is put into [self.settings] and
    otherwise ignored: [.get] raises [AttributeError], which the [try]
    swallows.  No box changes, nothing is written, and start-up goes on. *)
Theorem non_object_settings_are_swallowed (s : St) (doc : json) :
  settings_file s = Some (Json_text doc) →
  (∀ fields, doc ≠ JObj fields) →
  load_settings s = (Ok tt, set_settings doc s) ∧
  ∀ nd scan dark,
    main (fresh nd (Some (Json_text doc)) scan dark)
    = (Ok tt, set_settings doc (constructed nd (Some (Json_text doc)) scan dark)).
Proof.
  intros Hfile Hdoc.
  split; [apply load_settings_not_object; assumption|].
  intros nd scan dark. apply main_run_with_file, load_settings_not_object; [|exact Hdoc].
  destruct nd; reflexivity.
Qed.

Lemma non_object_settings_are_swallowed_witness :
  (main (desk_on_file (JArr [JStr "Monitor1"]))).1 = Ok tt ∧
  checked_names <$> monitor_checkboxes (main (desk_on_file (JArr [JStr "Monitor1"]))).2
  = Some [].
Proof.
  destruct (non_object_settings_are_swallowed (desk_on_file (JArr [JStr "Monitor1"]))
              (JArr [JStr "Monitor1"]) eq_refl) as [_ Hmain]; [discriminate|].
  unfold desk_on_file, start_on. rewrite Hmain.
  split; vm_compute; reflexivity.
Defined.

(** X6.  A settings object whose [secondary_monitors] is a number, a
    boolean or [null] ends the program at start-up as soon as there is one
    checkbox: [monitor in ...] raises [TypeError], which the [try] does not
    catch.  Without a checkbox (no eligible monitor, or [--no-ddcci]) the
    same file is accepted. *)
Theorem non_iterable_selection_raises_TypeError (fields : list (string * json))
    (v : json) (scan : nat → list Monitor) (dark : bool) :
  dict_get "secondary_monitors" fields = Some v →
  container_has v = None →
  (∀ s item d,
     settings_file s = Some (Json_text (JObj fields)) →
     monitor_checkboxes s = Some (item :: d) →
     load_settings s = (Raise TypeError, set_settings (JObj fields) s)) ∧
  (eligible_names (scan 1) ≠ [] →
   (main (start_on (JObj fields) scan dark)).1 = Raise TypeError) ∧
  (eligible_names (scan 1) = [] →
   (main (start_on (JObj fields) scan dark)).1 = Ok tt) ∧
  (main (fresh true (Some (Json_text (JObj fields))) scan dark)).1 = Ok tt.
Proof.
  intros Hkey Hv.
  pose proof (λ s0, load_settings_not_iterable s0 fields v Hkey Hv) as Hload.
  split; [|split; [|split]].
  - intros s item d Hfile Hd. rewrite (Hload s Hfile), Hd. reflexivity.
  - intros Hsome. unfold main, start_on. rewrite bind_run, QMS_init_run, Hload by reflexivity.
    cbn [constructed monitor_checkboxes].
    destruct (built_checkboxes (scan 1)) as [|item d] eqn:Hb; [|reflexivity].
    exfalso. destruct (eligible_names (scan 1)) as [|k l] eqn:El; [congruence|].
    assert (Hk : k ∈ keys (built_checkboxes (scan 1)))
      by (apply built_checkboxes_keys; rewrite El; left).
    rewrite Hb in Hk. inversion Hk.
  - intros Hnone. unfold start_on. erewrite main_run_with_file; [reflexivity|].
    rewrite Hload by reflexivity. cbn [constructed monitor_checkboxes].
    destruct (built_checkboxes (scan 1)) as [|[k c] d] eqn:Hb; [reflexivity|].
    exfalso. assert (Hk : k ∈ eligible_names (scan 1)).
    { apply built_checkboxes_keys. rewrite Hb. left. }
    rewrite Hnone in Hk. inversion Hk.
  - erewrite main_run_with_file; [reflexivity|].
    rewrite Hload by reflexivity. reflexivity.
Qed.

Lemma non_iterable_selection_raises_TypeError_witness :
  (main (desk_on_file (JObj [("secondary_monitors", JInt 5)]))).1 = Raise TypeError.
Proof.
  destruct (non_iterable_selection_raises_TypeError [("secondary_monitors", JInt 5)]
              (JInt 5) (λ _, [primary; monitor1 "No"; monitor2 "No"]) false
              eq_refl eq_refl) as (_ & Hraise & _).
  apply Hraise. vm_compute. discriminate.
Defined.

(** *** The running window, with DDC/CI *)

Lemma boxes_match_dict (s : St) :
  boxes_match s →
  ∃ d, monitor_checkboxes s = Some d ∧ keys d = keys (built_checkboxes (monitors s)).
Proof.
  intros [_ H]. destruct (monitor_checkboxes s) as [d|]; [|discriminate].
  injection H as H. eauto.
Qed.

Lemma boxes_match_same_window (s0 s' : St) :
  same_window s0 s' → boxes_match s0 → boxes_match s'.
Proof.
  intros (Hnd & Hms & Hkeys & _) [H1 H2]. split; [congruence|].
  rewrite Hkeys, Hms. exact H2.
Qed.

Lemma boxes_match_rescanned (s : St) : no_ddcci s = false → boxes_match (rescanned s).
Proof. intros Hnd. split; [exact Hnd | reflexivity]. Qed.

(** From a sound window with its boxes in place every signal is handled
    without an exception, and the boxes are in place again. *)
Lemma handle_ready (a : action) (s : St) :
  sound s → boxes_match s →
  (handle a s).1 = Ok tt ∧ boxes_match (handle a s).2.
Proof.
  intros Hsound Hboxes. destruct (boxes_match_dict s Hboxes) as (d & Hd & Hkeys).
  pose proof Hboxes as [Hnd Hmatch].
  destruct a; cbn [handle].
  - unfold click_checkbox, self_monitor_checkboxes. run. rewrite Hd.
    destruct (dict_get monitor d) as [cur|] eqn:Hk; [|auto].
    rewrite (checkbox_setChecked_run s d monitor cur (negb cur) Hd Hk).
    split; [reflexivity|]. cbn [snd].
    destruct (Bool.eqb cur (negb cur)); [exact Hboxes|].
    split; [exact Hnd|]. unfold saved. run.
    cbn [fmap option_fmap option_map].
    rewrite keys_dict_set_present by eauto. rewrite Hd in Hmatch. exact Hmatch.
  - unfold click_older_checkbox. run.
    destruct (1 <? _)%nat; [|auto].
    rewrite (save_settings_run s d Hd). split; [reflexivity|]. exact Hboxes.
  - rewrite create_monitor_checkboxes_run. split; [reflexivity|].
    apply boxes_match_rescanned, Hnd.
  - destruct (toggle_run s) as (cmds & _ & _ & Hco).
    destruct (Hco (proj2 (proj2 Hsound))) as [_ ->]. split; [reflexivity|].
    cbn [snd]. unfold toggled. rewrite Hnd. apply boxes_match_rescanned. reflexivity.
  - destruct (toggle_run s) as (cmds & _ & _ & Hco).
    destruct (Hco (proj2 (proj2 Hsound))) as [_ ->]. split; [reflexivity|].
    cbn [snd]. unfold toggled. rewrite Hnd. apply boxes_match_rescanned. reflexivity.
  - split; [reflexivity | exact Hboxes].
  - split; [reflexivity | exact Hboxes].
Qed.

Lemma run_actions_ready (acts : list action) : ∀ s : St,
  sound s → boxes_match s →
  (run_actions acts s).1 = Ok tt ∧ boxes_match (run_actions acts s).2.
Proof.
  unfold run_actions.
  induction acts as [|a acts IH]; intros s Hsound Hboxes; [split; [reflexivity | exact Hboxes]|].
  cbn [for_each]. rewrite bind_run.
  destruct (handle_ready a s Hsound Hboxes) as [Hok Hb].
  pose proof (keeps_sound_handle a s Hsound) as Hs.
  destruct (handle a s) as [[[]|e] s']; cbn [fst snd] in *; [|discriminate].
  apply IH; assumption.
Qed.

Lemma load_settings_window (s : St) :
  ∃ fr, same_window (set_first_run fr s) (load_settings s).2.
Proof.
  rewrite load_settings_unfold.
  destruct (settings_file s) as [[doc|raw]|].
  - exists (first_run s). apply keeps_same_window_load_loop. repeat split.
  - exists (first_run s). repeat split.
  - exists true. repeat split.
Qed.

Lemma main_window (nd : bool) (file : option file_content) (scan : nat → list Monitor)
    (dark : bool) :
  ∃ fr vis, same_window (set_visible vis (set_first_run fr (constructed nd file scan dark)))
              (main (fresh nd file scan dark)).2.
Proof.
  unfold main. rewrite bind_run, QMS_init_run.
  destruct (load_settings_window (constructed nd file scan dark)) as [fr Hw].
  destruct (load_settings (constructed nd file scan dark)) as [[[]|e] s'];
    cbn [snd] in Hw.
  - unfold get, when. run. destruct Hw as (? & ? & ? & ? & Hfr & ? & ? & ? & ?).
    destruct (first_run s') eqn:Hrun.
    + exists fr, true. unfold show. run. rewrite <- Hrun in Hfr.
      repeat split; assumption.
    + exists fr, (visible s'). rewrite <- Hrun in Hfr. repeat split; assumption.
  - exists fr, false. exact Hw.
Qed.

Lemma boxes_match_main (file : option file_content) (scan : nat → list Monitor)
    (dark : bool) :
  boxes_match (main (fresh false file scan dark)).2.
Proof.
  destruct (main_window false file scan dark) as (fr & vis & Hw).
  eapply boxes_match_same_window; [exact Hw|]. split; reflexivity.
Qed.

(** X7.  With DDC/CI in use, once the window is up no click raises an
    exception, whatever the scans return and in whatever order the user
    clicks boxes, rescans, toggles, shows and closes the window: in
    particular [next(...)] on line 155 always finds the monitor of a checked
    box among [self.monitors]. *)
Theorem no_click_raises_once_the_window_is_up (file : option file_content)
    (scan : nat → list Monitor) (dark : bool) (acts : list action) :
  (main (fresh false file scan dark)).1 = Ok tt →
  (session acts (fresh false file scan dark)).1 = Ok tt.
Proof.
  intros Hmain. unfold session. rewrite bind_run.
  pose proof (sound_main false file scan dark) as Hsound.
  pose proof (boxes_match_main file scan dark) as Hboxes.
  destruct (main (fresh false file scan dark)) as [[[]|e] s]; cbn [fst snd] in *;
    [|discriminate].
  apply run_actions_ready; assumption.
Qed.

Lemma no_click_raises_once_the_window_is_up_witness :
  (session [ClickCheckbox "Monitor2"; ClickTray; ClickCheckbox "Monitor1";
            ClickRescan; MenuToggle; CloseWindow] desk_off).1 = Ok tt.
Proof.
  apply no_click_raises_once_the_window_is_up. vm_compute. reflexivity.
Defined.

(** X8.  With DDC/CI in use the boxes are at every moment those of the
    latest scan: after start-up and any clicks, [self.monitors] is what the
    last [generate_monitors()] returned, and the dict holds one box per
    distinct name with ["No"] in column 3, in the order of the rows, and no
    other. *)
Theorem boxes_are_those_of_the_latest_scan (file : option file_content)
    (scan : nat → list Monitor) (dark : bool) (acts : list action) :
  let s := (session acts (fresh false file scan dark)).2 in
  monitors s = last_scan [] (log s) ∧
  ∃ d, monitor_checkboxes s = Some d ∧
       keys d = keys (built_checkboxes (monitors s)) ∧
       NoDup (keys d) ∧
       ∀ k, k ∈ keys d ↔ k ∈ eligible_names (monitors s).
Proof.
  cbv zeta.
  pose proof (sound_session false file scan dark acts) as (_ & Hscan & _).
  assert (Hboxes : boxes_match (session acts (fresh false file scan dark)).2).
  { unfold session. rewrite bind_run.
    pose proof (sound_main false file scan dark) as Hsound.
    pose proof (boxes_match_main file scan dark) as Hb.
    destruct (main (fresh false file scan dark)) as [[[]|e] s]; cbn [fst snd] in *;
      [|exact Hb].
    apply run_actions_ready; assumption. }
  split; [symmetry; exact Hscan|].
  destruct (boxes_match_dict _ Hboxes) as (d & Hd & Hkeys).
  exists d. split; [exact Hd|]. split; [exact Hkeys|].
  rewrite Hkeys. split; [apply built_checkboxes_NoDup|].
  intros k. apply built_checkboxes_keys.
Qed.

(** *** The tray *)

Lemma tray_agrees_same_window (s0 s' : St) :
  same_window s0 s' → tray_agrees s0 → tray_agrees s'.
Proof.
  intros (_ & _ & _ & _ & _ & Hen & Htray & _) [H1 H2].
  unfold tray_agrees. rewrite Htray, Hen. split; assumption.
Qed.

Lemma tray_agrees_handle (a : action) (s : St) :
  tray_agrees s → tray_agrees (handle a s).2.
Proof.
  intros Htray.
  assert (Htoggle : tray_agrees (toggle_secondary_monitors s).2).
  { destruct (toggle_run s) as (cmds & _ & [-> | [e ->]] & _); cbn [snd].
    - unfold toggled. destruct (no_ddcci s); split; reflexivity.
    - exact Htray. }
  destruct a; cbn [handle]; try exact Htoggle; try exact Htray.
  - unfold click_checkbox, self_monitor_checkboxes. run.
    destruct (monitor_checkboxes s) as [d|] eqn:Hd; [|exact Htray]. run.
    destruct (dict_get monitor d) as [cur|] eqn:Hk; [|exact Htray].
    rewrite (checkbox_setChecked_run s d monitor cur (negb cur) Hd Hk). cbn [snd].
    destruct (Bool.eqb cur (negb cur)); exact Htray.
  - unfold click_older_checkbox. run.
    destruct (1 <? _)%nat; [|exact Htray].
    unfold save_settings, self_monitor_checkboxes, json_dump. run.
    destruct (monitor_checkboxes s) as [d|]; exact Htray.
  - rewrite create_monitor_checkboxes_run. exact Htray.
Qed.

Lemma tray_agrees_run_actions (acts : list action) : ∀ s : St,
  tray_agrees s → tray_agrees (run_actions acts s).2.
Proof.
  unfold run_actions. induction acts as [|a acts IH]; intros s Htray; [exact Htray|].
  cbn [for_each]. rewrite bind_run.
  pose proof (tray_agrees_handle a s Htray) as H.
  destruct (handle a s) as [[[]|e] s']; cbn [snd] in H; [apply IH, H | exact H].
Qed.

(** X9.  The tray always tells the truth about the flag: after start-up and
    any clicks, with or without DDC/CI, whatever the settings file holds and
    even when a handler raised, the icon is the "primary" variant and the
    menu offers "Disable secondary monitors" exactly when
    [secondary_monitors_enabled] is set. *)
Theorem tray_always_shows_the_flag (nd : bool) (file : option file_content)
    (scan : nat → list Monitor) (dark : bool) (acts : list action) :
  let s := (session acts (fresh nd file scan dark)).2 in
  icon_variant (tray_icon s)
  = (if secondary_monitors_enabled s then "primary" else "secondary") ∧
  menu_toggle_text (tray_icon s)
  = (if secondary_monitors_enabled s then "Disable secondary monitors"
     else "Enable secondary monitors").
Proof.
  cbv zeta.
  assert (H : tray_agrees (session acts (fresh nd file scan dark)).2).
  { unfold session. rewrite bind_run.
    assert (Hmain : tray_agrees (main (fresh nd file scan dark)).2).
    { destruct (main_window nd file scan dark) as (fr & vis & Hw).
      eapply tray_agrees_same_window; [exact Hw|]. split; reflexivity. }
    destruct (main (fresh nd file scan dark)) as [[[]|e] s]; cbn [snd] in *;
      [|exact Hmain].
    apply tray_agrees_run_actions, Hmain. }
  destruct H as [H1 H2]. rewrite H1, H2.
  destruct (secondary_monitors_enabled _); split; reflexivity.
Qed.

(** *** What a toggle leaves alone *)

Lemma toggle_frame (s : St) :
  settings (toggle_secondary_monitors s).2 = settings s ∧
  settings_file (toggle_secondary_monitors s).2 = settings_file s ∧
  first_run (toggle_secondary_monitors s).2 = first_run s ∧
  visible (toggle_secondary_monitors s).2 = visible s ∧
  no_ddcci (toggle_secondary_monitors s).2 = no_ddcci s.
Proof.
  destruct (toggle_run s) as (cmds & _ & [-> | [e ->]] & _); cbn [snd].
  - unfold toggled. destruct (no_ddcci s) eqn:Hnd; repeat split; exact Hnd.
  - repeat split.
Qed.

(** X10.  A toggle never touches the settings: in every state and however
    it ends, [self.settings], the settings file, [first_run], the visibility
    of the window and [no_ddcci] are as before, and nothing is written to
    the file on the way. *)
Theorem toggle_leaves_the_settings_alone (s : St) :
  let s' := (toggle_secondary_monitors s).2 in
  settings s' = settings s ∧ settings_file s' = settings_file s ∧
  first_run s' = first_run s ∧ visible s' = visible s ∧
  no_ddcci s' = no_ddcci s ∧
  ∀ doc, EvWrite doc ∉ emitted toggle_secondary_monitors s.
Proof.
  cbv zeta.
  destruct (toggle_frame s) as (H1 & H2 & H3 & H4 & H5). repeat split; try assumption.
  intros doc Hin.
  destruct (toggle_emitted s) as (cmds & post & scans & Hlog & Hcmds & Hscans & Hpost & _).
  rewrite Hlog in Hin.
  rewrite !elem_of_app in Hin. destruct Hin as [Hin | [Hin | [Hin | Hin]]].
  - destruct (secondary_monitors_enabled s).
    + apply elem_of_nil in Hin. exact Hin.
    + apply list_elem_of_singleton in Hin. discriminate.
  - rewrite Forall_forall in Hcmds. apply Hcmds in Hin as [name Hname]. discriminate.
  - destruct Hpost as [-> | [-> _]].
    + destruct (secondary_monitors_enabled s).
      * apply list_elem_of_singleton in Hin. discriminate.
      * apply elem_of_nil in Hin. exact Hin.
    + apply elem_of_nil in Hin. exact Hin.
  - rewrite Forall_forall in Hscans. apply Hscans in Hin as [rows Hrows]. discriminate.
Qed.

(** *** Without DDC/CI *)

Lemma toggle_no_ddcci (s : St) :
  no_ddcci s = true → toggle_secondary_monitors s = (Ok tt, display_toggled s).
Proof.
  intros Hnd. rewrite toggle_unfold. cbv zeta. rewrite Hnd.
  rewrite toggle_finish_run.
  destruct s as [nd ms cbs gl st fr en tr vis file scan n dark lg].
  cbn in Hnd. subst nd.
  destruct en; unfold finished, display_toggled; cbn; rewrite ?app_nil_r; reflexivity.
Qed.

Lemma run_actions_tray_only (acts : list action) : ∀ s : St,
  no_ddcci s = true → forallb tray_only acts = true →
  let n := length (filter (λ a, is_toggle a = true) acts) in
  (run_actions acts s).1 = Ok tt ∧
  log (run_actions acts s).2 = log s ++ switches (secondary_monitors_enabled s) n ∧
  secondary_monitors_enabled (run_actions acts s).2
  = (if Nat.even n then secondary_monitors_enabled s
     else negb (secondary_monitors_enabled s)) ∧
  no_ddcci (run_actions acts s).2 = true ∧
  monitors (run_actions acts s).2 = monitors s ∧
  monitor_checkboxes (run_actions acts s).2 = monitor_checkboxes s ∧
  gridLayout_2 (run_actions acts s).2 = gridLayout_2 s ∧
  settings (run_actions acts s).2 = settings s ∧
  settings_file (run_actions acts s).2 = settings_file s ∧
  scans_done (run_actions acts s).2 = scans_done s.
Proof.
  unfold run_actions. cbv zeta.
  induction acts as [|a acts IH]; intros s Hnd Hacts.
  - cbn. rewrite app_nil_r. repeat split; exact Hnd.
  - cbn [forallb] in Hacts. apply andb_prop in Hacts as [Ha Hacts].
    cbn [for_each]. rewrite bind_run.
    assert (Htoggle : is_toggle a = true → handle a s = (Ok tt, display_toggled s)).
    { destruct a; try discriminate; intros _; apply toggle_no_ddcci, Hnd. }
    assert (Hother : is_toggle a = false →
              ∃ vis, handle a s = (Ok tt, set_visible vis s)).
    { destruct a; try discriminate; intros _; [exists true | exists false]; reflexivity. }
    destruct (is_toggle a) eqn:Hk.
    + rewrite (Htoggle eq_refl).
      rewrite filter_cons_True by exact Hk. cbn [length].
      destruct (IH (display_toggled s) Hnd Hacts)
        as (H1 & H2 & H3 & H4 & H5 & H6 & H7 & H8 & H9 & H10).
      rewrite H2, H3, H5, H6, H7, H8, H9, H10.
      repeat split; try assumption.
      * cbn [log display_toggled switches]. rewrite <- app_assoc. reflexivity.
      * cbn [secondary_monitors_enabled display_toggled].
        rewrite Nat.even_succ, <- Nat.negb_even.
        destruct (Nat.even _); cbn [negb]; rewrite ?Bool.negb_involutive; reflexivity.
    + destruct (Hother eq_refl) as [vis ->].
      rewrite filter_cons_False by (rewrite Hk; discriminate).
      destruct (IH (set_visible vis s) Hnd Hacts)
        as (H1 & H2 & H3 & H4 & H5 & H6 & H7 & H8 & H9 & H10).
      rewrite H2, H3, H5, H6, H7, H8, H9, H10.
      repeat split; assumption.
Qed.

Lemma main_no_ddcci (file : option file_content) (scan : nat → list Monitor)
    (dark : bool) :
  (∀ raw, file ≠ Some (Malformed_text raw)) →
  ∃ s0, main (fresh true file scan dark) = (Ok tt, s0) ∧
        log s0 = [EvScan (scan 0)] ∧
        secondary_monitors_enabled s0 = active_secondary (scan 0) ∧
        no_ddcci s0 = true ∧ monitors s0 = scan 0 ∧
        monitor_checkboxes s0 = None ∧ gridLayout_2 s0 = [] ∧
        settings_file s0 = file ∧ scans_done s0 = 1 ∧
        visible s0 = bool_decide (file = None).
Proof.
  intros Hfile. unfold main. rewrite bind_run, QMS_init_run, load_settings_unfold.
  destruct file as [[doc|raw]|].
  - eexists. split; [reflexivity|]. repeat split.
  - destruct (Hfile raw eq_refl).
  - eexists. split; [reflexivity|]. repeat split.
Qed.

(** X11.  Started with [--no-ddcci] on a settings file that is absent or
    decodes, the program scans once and from then on only switches the
    display: every click on the tray, its menu or the window returns, the
    n-th toggle calls [run_display_switch] with "/extend" or "/internal" in
    turn (starting from what the scan showed), no DDC/CI call is made, no
    further scan, no checkbox is created and the settings file is never
    written. *)
Theorem no_ddcci_only_switches_the_display (file : option file_content)
    (scan : nat → list Monitor) (dark : bool) (acts : list action) :
  (∀ raw, file ≠ Some (Malformed_text raw)) →
  forallb tray_only acts = true →
  let r := session acts (fresh true file scan dark) in
  let n := length (filter (λ a, is_toggle a = true) acts) in
  r.1 = Ok tt ∧
  log r.2 = EvScan (scan 0) :: switches (active_secondary (scan 0)) n ∧
  secondary_monitors_enabled r.2
  = (if Nat.even n then active_secondary (scan 0) else negb (active_secondary (scan 0))) ∧
  monitors r.2 = scan 0 ∧
  monitor_checkboxes r.2 = None ∧ gridLayout_2 r.2 = [] ∧
  settings_file r.2 = file.
Proof.
  intros Hfile Hacts. cbv zeta. unfold session. rewrite bind_run.
  destruct (main_no_ddcci file scan dark Hfile)
    as (s0 & -> & Hlog & Hen & Hnd & Hms & Hcbs & Hgrid & Hf & _).
  destruct (run_actions_tray_only acts s0 Hnd Hacts)
    as (H1 & H2 & H3 & _ & H5 & H6 & H7 & _ & H9 & _).
  rewrite H2, H3, H5, H6, H7, H9, Hlog, Hen, Hms, Hcbs, Hgrid, Hf.
  repeat split. exact H1.
Qed.

Lemma no_ddcci_only_switches_the_display_witness :
  let r := session [ClickTray; MenuSettings; MenuToggle; CloseWindow; ClickTray]
             (fresh true None (λ _, [primary; monitor1 "No"; monitor2 "No"]) false) in
  r.1 = Ok tt ∧
  log r.2 = [EvScan [primary; monitor1 "No"; monitor2 "No"];
             EvDisplaySwitch "/extend"; EvDisplaySwitch "/internal";
             EvDisplaySwitch "/extend"].
Proof.
  cbv zeta.
  pose proof (no_ddcci_only_switches_the_display None
                (λ _, [primary; monitor1 "No"; monitor2 "No"]) false
                [ClickTray; MenuSettings; MenuToggle; CloseWindow; ClickTray]) as H.
  destruct H as (H1 & H2 & _); [discriminate | reflexivity |].
  split; [exact H1|]. rewrite H2. vm_compute. reflexivity.
Defined.

(** X12.  Under [--no-ddcci] two toggles in a row undo each other: the flag
    and the tray are back where they were, the two display switches are
    "/extend" then "/internal" or the reverse, and nothing else of the
    object has changed. *)
Theorem no_ddcci_toggle_twice_is_undone (s : St) :
  no_ddcci s = true →
  tray_icon s = mkTray (tray_variant (secondary_monitors_enabled s))
                       (tray_theme (is_dark s))
                       (tray_menu_text (secondary_monitors_enabled s)) →
  (toggle_secondary_monitors ;; toggle_secondary_monitors) s
  = (Ok tt,
     set_log (log s ++ (if secondary_monitors_enabled s
                        then [EvDisplaySwitch "/internal"; EvDisplaySwitch "/extend"]
                        else [EvDisplaySwitch "/extend"; EvDisplaySwitch "/internal"])) s).
Proof.
  intros Hnd Htray. rewrite bind_run, (toggle_no_ddcci s Hnd).
  rewrite (toggle_no_ddcci (display_toggled s)) by exact Hnd.
  destruct s as [nd ms cbs gl st fr en tr vis file scan n dark lg].
  cbn in Hnd, Htray. subst nd tr.
  destruct en; unfold display_toggled, set_log; cbn; rewrite <- app_assoc; reflexivity.
Qed.

Lemma no_ddcci_toggle_twice_is_undone_witness :
  let s := (main (fresh true None (λ _, [primary; monitor1 "No"]) true)).2 in
  (toggle_secondary_monitors ;; toggle_secondary_monitors) s
  = (Ok tt,
     set_log (log s ++ [EvDisplaySwitch "/extend"; EvDisplaySwitch "/internal"]) s).
Proof.
  cbv zeta.
  set (s := (main (fresh true None (λ _, [primary; monitor1 "No"]) true)).2).
  rewrite (no_ddcci_toggle_twice_is_undone s); [|reflexivity|reflexivity].
  f_equal.
Defined.

(** *** Start-up on any settings file *)

Lemma stored_selection_not_container (fields : list (string * json)) :
  container_has (stored_selection fields) = None →
  ∃ v, dict_get "secondary_monitors" fields = Some v ∧ container_has v = None.
Proof.
  unfold stored_selection.
  destruct (dict_get "secondary_monitors" fields) as [v|]; cbn [default]; [eauto|].
  discriminate.
Qed.

(** Loading into unchecked boxes, whatever the file holds: either nothing
    is checked and nothing written, or one box is checked and the file is
    rewritten to list that box alone. *)
Lemma load_settings_at_most_one (s : St) (d : list (string * bool)) :
  monitor_checkboxes s = Some d → NoDup (keys d) → checked_names d = [] →
  let s' := (load_settings s).2 in
  ∃ d', monitor_checkboxes s' = Some d' ∧ keys d' = keys d ∧
    ((checked_names d' = [] ∧ log s' = log s ∧ settings_file s' = settings_file s) ∨
     (∃ k, k ∈ keys d ∧ checked_names d' = [k] ∧
           log s' = log s ++ [EvWrite (settings_doc [k])] ∧
           settings_file s' = Some (Json_text (settings_doc [k])))).
Proof.
  intros Hd Hnd Hnone. cbv zeta.
  assert (Hleft : ∀ s0 : St,
            monitor_checkboxes s0 = Some d → log s0 = log s →
            settings_file s0 = settings_file s →
            ∃ d', monitor_checkboxes s0 = Some d' ∧ keys d' = keys d ∧
              ((checked_names d' = [] ∧ log s0 = log s ∧
                settings_file s0 = settings_file s) ∨
               (∃ k, k ∈ keys d ∧ checked_names d' = [k] ∧
                     log s0 = log s ++ [EvWrite (settings_doc [k])] ∧
                     settings_file s0 = Some (Json_text (settings_doc [k]))))).
  { intros s0 H1 H2 H3. exists d. split; [exact H1|]. split; [reflexivity|]. left. auto. }
  destruct (settings_file s) as [[doc|raw]|] eqn:Hfile.
  - assert (Hobj : (∃ fields, doc = JObj fields) ∨ ∀ fields, doc ≠ JObj fields)
      by (destruct doc; try (right; discriminate); left; eauto).
    destruct Hobj as [[fields ->] | Hdoc].
    + destruct (container_has (stored_selection fields)) as [f|] eqn:Hf.
      * rewrite (load_settings_unchecked s fields f d Hfile Hf Hd Hnd Hnone). cbn [snd].
        destruct (find f (keys d)) as [k|] eqn:Hfind.
        -- apply find_elem_of in Hfind as [Hk _].
           destruct (box_restored_fields k d (set_settings (JObj fields) s) Hnd Hnone Hk)
             as (Hkeys & Hchecked & _ & Hf' & Hlog).
           destruct (monitor_checkboxes (box_restored k d (set_settings (JObj fields) s)))
             as [d'|]; [|discriminate].
           injection Hkeys as Hkeys. injection Hchecked as Hchecked.
           exists d'. split; [reflexivity|]. split; [exact Hkeys|]. right.
           exists k. repeat split; assumption.
        -- apply Hleft; [exact Hd | reflexivity | exact Hfile].
      * apply stored_selection_not_container in Hf as (v & Hkey & Hv).
        rewrite (load_settings_not_iterable s fields v Hkey Hv Hfile), Hd.
        destruct d; apply Hleft; auto.
    + rewrite (load_settings_not_object s doc Hfile Hdoc).
      apply Hleft; [exact Hd | reflexivity | exact Hfile].
  - rewrite load_settings_unfold, Hfile. apply Hleft; auto.
  - rewrite load_settings_unfold, Hfile. apply Hleft; auto.
Qed.

Lemma main_state (nd : bool) (file : option file_content) (scan : nat → list Monitor)
    (dark : bool) :
  let loaded := (load_settings (constructed nd file scan dark)).2 in
  let s := (main (fresh nd file scan dark)).2 in
  monitor_checkboxes s = monitor_checkboxes loaded ∧ log s = log loaded ∧
  settings_file s = settings_file loaded ∧ settings s = settings loaded.
Proof.
  cbv zeta. unfold main. rewrite bind_run, QMS_init_run.
  destruct (load_settings (constructed nd file scan dark)) as [[[]|e] s'].
  - unfold get, when, show. run. destruct (first_run s'); repeat split.
  - repeat split.
Qed.

(** X13.  Whatever the settings file holds (absent, malformed, any JSON
    value), start-up with DDC/CI ends in one of two ways: no box is checked,
    nothing was written and the file is as it was; or exactly one box is
    checked, the box of a name the second scan offers, and the file was
    rewritten once, to list that name alone.  Start-up never restores two
    boxes. *)
Theorem startup_checks_at_most_one_box (file : option file_content)
    (scan : nat → list Monitor) (dark : bool) :
  let s := (main (fresh false file scan dark)).2 in
  ∃ d, monitor_checkboxes s = Some d ∧
       keys d = keys (built_checkboxes (scan 1)) ∧
       ((checked_names d = [] ∧
         log s = [EvScan (scan 0); EvScan (scan 1)] ∧
         settings_file s = file) ∨
        (∃ k, k ∈ eligible_names (scan 1) ∧ checked_names d = [k] ∧
              log s = [EvScan (scan 0); EvScan (scan 1); EvWrite (settings_doc [k])] ∧
              settings_file s = Some (Json_text (settings_doc [k])))).
Proof.
  cbv zeta.
  destruct (main_state false file scan dark) as (Hcbs & Hlog & Hfile & _).
  rewrite Hcbs, Hlog, Hfile.
  destruct (load_settings_at_most_one (constructed false file scan dark)
              (built_checkboxes (scan 1)) eq_refl
              (built_checkboxes_NoDup (scan 1)) (built_checkboxes_unchecked (scan 1)))
    as (d' & Hd' & Hkeys & Hcases).
  exists d'. split; [exact Hd'|]. split; [exact Hkeys|].
  destruct Hcases as [(H1 & H2 & H3) | (k & Hk & H1 & H2 & H3)].
  - left. repeat split; assumption.
  - right. exists k. split; [apply built_checkboxes_keys, Hk|]. repeat split; assumption.
Qed.

(** *** The settings in memory and on disk *)

Lemma mirrored_handle (a : action) (s : St) :
  mirrored s → mirrored (handle a s).2.
Proof.
  intros Hm.
  assert (Hsame : ∀ s', settings s' = settings s → settings_file s' = settings_file s →
                        mirrored s').
  { intros s' H1 H2. unfold mirrored. rewrite H1, H2. exact Hm. }
  assert (Hsave : mirrored (save_settings s).2).
  { unfold save_settings, self_monitor_checkboxes, json_dump. run.
    destruct (monitor_checkboxes s) as [d|]; [reflexivity | exact Hm]. }
  destruct a; cbn [handle].
  - unfold click_checkbox, self_monitor_checkboxes. run.
    destruct (monitor_checkboxes s) as [d|] eqn:Hd; [|exact Hm]. run.
    destruct (dict_get monitor d) as [cur|] eqn:Hk; [|exact Hm].
    rewrite (checkbox_setChecked_run s d monitor cur (negb cur) Hd Hk). cbn [snd].
    destruct (Bool.eqb cur (negb cur)); [exact Hm | reflexivity].
  - unfold click_older_checkbox. run.
    destruct (1 <? _)%nat; [exact Hsave | exact Hm].
  - rewrite create_monitor_checkboxes_run. exact Hm.
  - destruct (toggle_frame s) as (H1 & H2 & _). apply Hsame; assumption.
  - destruct (toggle_frame s) as (H1 & H2 & _). apply Hsame; assumption.
  - exact Hm.
  - exact Hm.
Qed.

Lemma keeps_mirrored_setChecked (monitor : string) (b : bool) :
  keeps mirrored (checkbox_setChecked monitor b).
Proof.
  intros s Hm. unfold checkbox_setChecked, self_monitor_checkboxes. run.
  destruct (monitor_checkboxes s) as [d|] eqn:Hd; [|exact Hm].
  destruct (dict_get monitor d) as [cur|] eqn:Hk; [|exact Hm].
  destruct (Bool.eqb cur b); [exact Hm|].
  erewrite save_settings_run by (run; reflexivity). reflexivity.
Qed.

Lemma keeps_mirrored_load_loop : keeps mirrored load_loop.
Proof.
  apply keeps_except. unfold self_monitor_checkboxes.
  apply keeps_bind; [apply keeps_bind; [apply keeps_get | apply keeps_or_raise]|].
  intros d. apply keeps_for_each. intros monitor _.
  apply keeps_bind; [apply keeps_get|]. intros cur.
  apply keeps_bind; [apply keeps_py_get|]. intros stored.
  apply keeps_bind; [apply keeps_py_in|]. intros b.
  apply keeps_mirrored_setChecked.
Qed.

Lemma mirrored_run_actions (acts : list action) : ∀ s : St,
  mirrored s → mirrored (run_actions acts s).2.
Proof.
  unfold run_actions. induction acts as [|a acts IH]; intros s Hm; [exact Hm|].
  cbn [for_each]. rewrite bind_run.
  pose proof (mirrored_handle a s Hm) as H.
  destruct (handle a s) as [[[]|e] s']; cbn [snd] in H; [apply IH, H | exact H].
Qed.

(** X14.  What the object holds in [self.settings] is at every moment what
    the settings file holds: after start-up and any clicks, with or without
    DDC/CI, [self.settings] is the document last read from or written to the
    file, and it is the empty dict as long as there is no file, or none that
    decodes. *)
Theorem settings_mirror_the_file (nd : bool) (file : option file_content)
    (scan : nat → list Monitor) (dark : bool) (acts : list action) :
  let s := (session acts (fresh nd file scan dark)).2 in
  settings s = match settings_file s with
               | Some (Json_text doc) => doc
               | _ => JObj []
               end.
Proof.
  cbv zeta.
  assert (Hmain : mirrored (main (fresh nd file scan dark)).2).
  { destruct (main_state nd file scan dark) as (_ & _ & Hfile & Hset).
    unfold mirrored. rewrite Hfile, Hset.
    rewrite load_settings_unfold.
    change (settings_file (constructed nd file scan dark)) with file.
    destruct file as [[doc|raw]|]; [|reflexivity|reflexivity].
    apply keeps_mirrored_load_loop. reflexivity. }
  assert (H : mirrored (session acts (fresh nd file scan dark)).2).
  { unfold session. rewrite bind_run.
    destruct (main (fresh nd file scan dark)) as [[[]|e] s]; cbn [snd] in *;
      [|exact Hmain].
    apply mirrored_run_actions, Hmain. }
  exact H.
Qed.

(** *** The boxes and the grid a scan gives *)

Lemma eligible_names_cons (monitor : Monitor) (rows : list Monitor) :
  eligible_names (monitor :: rows)
  = if String.eqb (mon_3 monitor) "No" then mon_1 monitor :: eligible_names rows
    else eligible_names rows.
Proof.
  unfold eligible_names. destruct (String.eqb_spec (mon_3 monitor) "No") as [H|H].
  - rewrite filter_cons_True by exact H. reflexivity.
  - rewrite filter_cons_False by exact H. reflexivity.
Qed.

Lemma built_widgets_eligible (rows : list Monitor) :
  built_widgets rows = flat_map (λ k, [QLabel k; QCheckBox k]) (eligible_names rows).
Proof.
  unfold built_widgets. induction rows as [|monitor rows IH]; [reflexivity|].
  rewrite eligible_names_cons. cbn [flat_map]. rewrite IH.
  destruct (String.eqb (mon_3 monitor) "No"); reflexivity.
Qed.

Lemma dict_set_absent {V} (k : string) (v : V) (d : list (string * V)) :
  dict_get k d = None → dict_set k v d = d ++ [(k, v)].
Proof.
  induction d as [|[k' v'] d IH]; cbn [dict_get dict_set]; [reflexivity|].
  destruct (String.eqb k' k); [discriminate|].
  intros H. rewrite IH by exact H. reflexivity.
Qed.

Lemma foldl_add_checkbox_fresh (rows : list Monitor) : ∀ d : list (string * bool),
  NoDup (keys d ++ eligible_names rows) →
  foldl add_checkbox d rows = d ++ ((λ k, (k, false)) <$> eligible_names rows).
Proof.
  induction rows as [|monitor rows IH]; intros d Hnd; cbn [foldl].
  - cbn. rewrite app_nil_r. reflexivity.
  - rewrite eligible_names_cons in *. unfold add_checkbox at 2.
    destruct (String.eqb (mon_3 monitor) "No"); [|apply IH, Hnd].
    assert (Hk : dict_get (mon_1 monitor) d = None).
    { apply NoDup_app in Hnd as (_ & Hfresh & _).
      destruct (dict_get (mon_1 monitor) d) as [c|] eqn:Hc; [|reflexivity].
      exfalso. apply (Hfresh (mon_1 monitor)); [|left].
      apply dict_get_is_Some. eauto. }
    rewrite (dict_set_absent _ _ _ Hk), IH.
    + rewrite fmap_cons, <- app_assoc. reflexivity.
    + unfold keys in *. rewrite fmap_app, <- app_assoc. exact Hnd.
Qed.

(** X15.  What a scan puts on the window: the grid gets a label and a box
    for every row with ["No"] in column 3, in the order of the rows.  The
    dict gets one unchecked entry per such name, in that order, when the
    names are distinct; when two such rows share a name the dict has fewer
    entries than the grid has boxes, the earlier box of the name being
    reachable through the grid only. *)
Theorem scan_builds_one_dict_entry_per_distinct_name (s : St) :
  let rows := env_scan s (scans_done s) in
  let s' := (create_monitor_checkboxes s).2 in
  gridLayout_2 s' = flat_map (λ k, [QLabel k; QCheckBox k]) (eligible_names rows) ∧
  ∃ d, monitor_checkboxes s' = Some d ∧
       (NoDup (eligible_names rows) →
        d = (λ k, (k, false)) <$> eligible_names rows) ∧
       (¬ NoDup (eligible_names rows) →
        (length d < length (eligible_names rows))%nat).
Proof.
  cbv zeta. rewrite create_monitor_checkboxes_run. cbn [snd rescanned gridLayout_2
    monitor_checkboxes].
  set (rows := env_scan s (scans_done s)).
  split; [apply built_widgets_eligible|].
  exists (built_checkboxes rows). split; [reflexivity|]. split.
  - intros Hnd. unfold built_checkboxes. rewrite foldl_add_checkbox_fresh; [reflexivity|].
    exact Hnd.
  - intros Hdup.
    assert (Hsub : keys (built_checkboxes rows) ⊆+ eligible_names rows).
    { apply NoDup_submseteq; [apply built_checkboxes_NoDup|].
      intros k Hk. apply built_checkboxes_keys, Hk. }
    pose proof (submseteq_length _ _ Hsub) as Hle.
    unfold keys in Hle, Hsub. rewrite length_fmap in Hle.
    destruct (decide (length (eligible_names rows) ≤ length (built_checkboxes rows))%nat)
      as [Hge|Hlt]; [|lia].
    exfalso. apply Hdup.
    assert (Hperm : fst <$> built_checkboxes rows ≡ₚ eligible_names rows).
    { apply submseteq_length_Permutation; [exact Hsub|]. rewrite length_fmap. exact Hge. }
    rewrite <- Hperm. apply built_checkboxes_NoDup.
Qed.
